(** * great_expectations.core.config_provider

    A shallow embedding of [great_expectations/core/config_provider.py]:
    the abstract configuration provider, the aggregating
    [ConfigurationProvider] and the four concrete providers, followed by
    the properties of the specification that are settled on it.

    Conventions of the embedding.
    - Python objects that flow through [get_values] are values of type
      [pyval]; a [dict] with string keys is a [gmap string pyval].
      Sequences, floats and dictionaries with non-string keys are outside
      the modelled universe.
    - A method that can raise returns [exn + A]; a method that touches the
      process environment or the file system lives in the monad [M], which
      reads a [World] and writes the list of [event]s it performed.
    - The collaborators that are imported from other modules
      ([ConfigurationSubstitutor], [YAMLHandler], the constants of
      [GXCloudEnvironmentVariable]) are parameters of the development. *)

From Stdlib Require Import ZArith Ascii String.
From stdpp Require Import base option list gmap strings.

Local Open Scope string_scope.

(** ** Python values and exceptions *)

#[local] Unset Elimination Schemes.
Inductive pyval : Type :=
  | VNone
  | VBool (b : bool)
  | VInt (z : Z)
  | VStr (s : string)
  | VDict (m : gmap string pyval).
#[local] Set Elimination Schemes.

(** [Dict[str, Any]] and [Dict[str, str]]. *)
Abbreviation Values := (gmap string pyval).
Abbreviation StrDict := (gmap string string).

(** A [Dict[str, str]] seen as a Python object. *)
Definition of_str_dict (d : StrDict) : pyval := VDict (VStr <$> d).

(** The exceptions that this module raises, catches or lets through.
    [OSError] stands for the class and all its subclasses
    ([FileNotFoundError], [PermissionError], [IsADirectoryError], ...): the
    handler of [ConfigurationVariablesConfigurationProvider.get_values]
    only looks at [errno]. [ExternalError] is an exception raised by a
    collaborator that is not an [OSError]. *)
Inductive exn : Type :=
  | ValueError (msg : string)
  | TypeError (msg : string)
  | AttributeError (msg : string)
  | OSError (errno : option Z) (strerror : string)
  | ExternalError (name : string).

Module errno.
Definition ENOENT : Z := 2.
Definition EACCES : Z := 13.
Definition EISDIR : Z := 21.
End errno.

(** [type(x).__name__] for the modelled values. *)
Definition type_name (v : pyval) : string :=
  match v with
  | VNone => "NoneType"
  | VBool _ => "bool"
  | VInt _ => "int"
  | VStr _ => "str"
  | VDict _ => "dict"
  end.

(** [values.update(x)] on a dict [values]: a mapping overwrites the keys it
    has, the empty string is an empty iterable, a non-empty string yields
    one-character items (not pairs), and the other values are not
    iterable. *)
Definition dict_update (values : Values) (x : pyval) : exn + Values :=
  match x with
  | VDict m => inr (m ∪ values)
  | VStr "" => inr values
  | VStr _ =>
      inl (ValueError
             "dictionary update sequence element #0 has length 1; 2 is required")
  | _ => inl (TypeError ("'" ++ type_name x ++ "' object is not iterable"))
  end.

(** [dict(x)]. *)
Definition py_dict (x : pyval) : exn + Values := dict_update ∅ x.

(** [d or {}] for a dict [d]: a dict is false exactly when it is empty. *)
Definition dict_or_empty (d : Values) : Values :=
  if decide (d = ∅) then ∅ else d.

(** [s or default] for an [Optional[str]]: [None] and [""] are false. *)
Definition str_or (s : option string) (default : string) : string :=
  match s with
  | None | Some "" => default
  | Some r => r
  end.

(** ** [os.path] (posixpath) *)

Module os.
Definition curdir : string := ".".
Definition sep : string := "/".

Definition startswith_sep (s : string) : bool :=
  match s with
  | String "/"%char _ => true
  | _ => false
  end.

Fixpoint endswith_sep (s : string) : bool :=
  match s with
  | "" => false
  | String c "" => bool_decide (c = "/"%char)
  | String _ s' => endswith_sep s'
  end.

Module path.
Definition isabs (s : string) : bool := startswith_sep s.

(** [os.path.join(a, b)] with one component [b]. *)
Definition join (a b : string) : string :=
  if startswith_sep b then b
  else if bool_decide (a = "") || endswith_sep a then a ++ b
  else a ++ sep ++ b.
End path.
End os.

(** ** The world and the effect monad *)

(** What [open(path)] and then [read()] on the file object do: the outer
    sum is the outcome of [open], the inner one the outcome of [read]. *)
Definition file_outcome : Type := exn + (exn + string).

Record World : Type := mkWorld {
  os_environ : StrDict;
  filesystem : string -> file_outcome
}.

Inductive event : Type :=
  | EvEnviron
  | EvOpen (path : string)
  | EvRead (path : string)
  | EvClose (path : string).

Record outcome (A : Type) : Type := mkOutcome {
  events : list event;
  result : exn + A
}.
Arguments mkOutcome {A} _ _.
Arguments events {A} _.
Arguments result {A} _.

Definition M (A : Type) : Type := World -> outcome A.

Definition ret {A} (a : A) : M A := fun _ => mkOutcome [] (inr a).
Definition raise {A} (e : exn) : M A := fun _ => mkOutcome [] (inl e).

Definition bind {A B} (m : M A) (f : A -> M B) : M B := fun w =>
  let o := m w in
  match result o with
  | inl e => mkOutcome (events o) (inl e)
  | inr a => let o' := f a w in mkOutcome (events o ++ events o') (result o')
  end.

(** A pure, fallible computation. *)
Definition lift {A} (r : exn + A) : M A := fun _ => mkOutcome [] r.

(** [try: m except <class> as e: h e], where [h] returns [None] for an
    exception that the clause does not catch. *)
Definition try_except {A} (m : M A) (h : exn -> option (M A)) : M A := fun w =>
  let o := m w in
  match result o with
  | inr a => o
  | inl e =>
      match h e with
      | None => o
      | Some k => let o' := k w in mkOutcome (events o ++ events o') (result o')
      end
  end.

#[global] Instance M_ret : MRet M := @ret.
#[global] Instance M_bind : MBind M := fun A B f m => bind m f.

(** [dict(os.environ)] *)
Definition dict_os_environ : M StrDict := fun w =>
  mkOutcome [EvEnviron] (inr (os_environ w)).

(** [with open(path) as f: contents = f.read()]: the file is closed when
    the block is left, also when [read] raises. *)
Definition open_read (path : string) : M string := fun w =>
  match filesystem w path with
  | inl e => mkOutcome [EvOpen path] (inl e)
  | inr r => mkOutcome [EvOpen path; EvRead path; EvClose path] r
  end.

(** The paths of the files that a run opened, in order. *)
Definition opened_paths (evs : list event) : list string :=
  omap (fun ev => match ev with EvOpen p => Some p | _ => None end) evs.

(** The exception with which opening or reading a file fails, if any. *)
Definition read_failure (fo : file_outcome) : option exn :=
  match fo with
  | inl e => Some e
  | inr (inl e) => Some e
  | inr (inr _) => None
  end.

(** The world after [os.environ[k] = v]. *)
Definition setenv (k v : string) (w : World) : World :=
  mkWorld (<[k := v]> (os_environ w)) (filesystem w).

(** [os.path.isabs(x)] and [os.path.join(_, x)] call [os.fspath(x)]. *)
Definition fspath (x : pyval) : exn + string :=
  match x with
  | VStr s => inr s
  | _ => inl (TypeError ("expected str, bytes or os.PathLike object, not "
                           ++ type_name x))
  end.

(** ** The collaborators *)

(** [ConfigurationSubstitutor] (module [config_substitutor]): the two
    methods that this module calls. Both are pure; each can raise. *)
Record ConfigurationSubstitutor : Type := mkSubstitutor {
  substitute_config_variable : pyval -> pyval -> exn + pyval;
  substitute_all_config_variables : pyval -> pyval -> exn + pyval
}.

(** [GXCloudConfig] (module [data_context.types.base]). *)
Record GXCloudConfig : Type := mkGXCloudConfig {
  base_url : pyval;
  access_token : pyval;
  organization_id : pyval
}.

(** [GXCloudEnvironmentVariable] (module [data_context.cloud_constants]):
    the three members that this module reads. *)
Record GXCloudEnvironmentVariable : Type := mkCloudEnv {
  BASE_URL : string;
  ACCESS_TOKEN : string;
  ORGANIZATION_ID : string
}.

(** ** The classes *)

(** What [type(provider)] can be: one of the five classes of this module
    that can be instantiated, or a subclass of
    [AbstractConfigurationProvider] defined elsewhere, known by its module
    and its name. *)
Inductive class : Type :=
  | ConfigurationProvider
  | RuntimeEnvironmentConfigurationProvider
  | EnvironmentConfigurationProvider
  | ConfigurationVariablesConfigurationProvider
  | CloudConfigurationProvider
  | Subclass (module name : string).

#[global] Instance class_eq_dec : EqDecision class.
Proof. solve_decision. Defined.

Definition class_name (c : class) : string :=
  match c with
  | ConfigurationProvider => "ConfigurationProvider"
  | RuntimeEnvironmentConfigurationProvider =>
      "RuntimeEnvironmentConfigurationProvider"
  | EnvironmentConfigurationProvider => "EnvironmentConfigurationProvider"
  | ConfigurationVariablesConfigurationProvider =>
      "ConfigurationVariablesConfigurationProvider"
  | CloudConfigurationProvider => "CloudConfigurationProvider"
  | Subclass _ name => name
  end.

(** [c.__module__] *)
Definition class_module (c : class) : string :=
  match c with
  | Subclass module _ => module
  | _ => "great_expectations.core.config_provider"
  end.

(** [repr] of a class object, as an f-string prints it. *)
Definition class_repr (c : class) : string :=
  "<class '" ++ class_module c ++ "." ++ class_name c ++ "'>".

(** An [OrderedDict]: the items in insertion order, one per key. *)
Module OrderedDict.
Section ordered_dict.
Context {K V : Type} `{EqDecision K}.

Definition t : Type := list (K * V).

Definition empty : t := [].

(** [k in d] *)
Definition contains (k : K) (d : t) : bool :=
  existsb (fun kv => bool_decide (kv.1 = k)) d.

(** [d.get(k)] *)
Fixpoint get (k : K) (d : t) : option V :=
  match d with
  | [] => None
  | (k', v) :: d' => if decide (k' = k) then Some v else get k d'
  end.

(** [d[k] = v]: an existing key keeps its position, a new one goes last. *)
Fixpoint set (k : K) (v : V) (d : t) : t :=
  match d with
  | [] => [(k, v)]
  | (k', v') :: d' =>
      if decide (k' = k) then (k, v) :: d' else (k', v') :: set k v d'
  end.

End ordered_dict.
Arguments t : clear implicits.
End OrderedDict.

(** An instance of one of the classes. The attribute [_substitutor] is set
    by [AbstractConfigurationProvider.__init__]; it is [None] here when
    the instance has no such attribute. An instance of a subclass defined
    elsewhere comes with its own implementation of the abstract method
    [get_values]. *)
#[local] Unset Elimination Schemes.
Inductive Provider : Type :=
  | ConfigurationProvider_ (_substitutor : option ConfigurationSubstitutor)
      (_providers : list (class * Provider))
  | RuntimeEnvironmentConfigurationProvider_
      (_substitutor : option ConfigurationSubstitutor)
      (_runtime_environment : StrDict)
  | EnvironmentConfigurationProvider_
      (_substitutor : option ConfigurationSubstitutor)
  | ConfigurationVariablesConfigurationProvider_
      (_substitutor : option ConfigurationSubstitutor)
      (_config_variables_file_path : string)
      (_root_directory : option string)
  | CloudConfigurationProvider_
      (_substitutor : option ConfigurationSubstitutor)
      (_cloud_config : GXCloudConfig)
  | Subclass_ (module name : string)
      (_substitutor : option ConfigurationSubstitutor)
      (get_values : M pyval).
#[local] Set Elimination Schemes.

(** [type(provider)] *)
Definition type (p : Provider) : class :=
  match p with
  | ConfigurationProvider_ _ _ => ConfigurationProvider
  | RuntimeEnvironmentConfigurationProvider_ _ _ =>
      RuntimeEnvironmentConfigurationProvider
  | EnvironmentConfigurationProvider_ _ => EnvironmentConfigurationProvider
  | ConfigurationVariablesConfigurationProvider_ _ _ _ =>
      ConfigurationVariablesConfigurationProvider
  | CloudConfigurationProvider_ _ _ => CloudConfigurationProvider
  | Subclass_ module name _ _ => Subclass module name
  end.

(** [self._substitutor]: an [AttributeError] when the attribute was never
    set. *)
Definition get_substitutor (p : Provider) : exn + ConfigurationSubstitutor :=
  let attr :=
    match p with
    | ConfigurationProvider_ s _ => s
    | RuntimeEnvironmentConfigurationProvider_ s _ => s
    | EnvironmentConfigurationProvider_ s => s
    | ConfigurationVariablesConfigurationProvider_ s _ _ => s
    | CloudConfigurationProvider_ s _ => s
    | Subclass_ _ _ s _ => s
    end in
  match attr with
  | Some s => inr s
  | None =>
      inl (AttributeError
             ("'" ++ class_name (type p)
                  ++ "' object has no attribute '_substitutor'"))
  end.

(** The error of a method call on an instance whose class lacks it. *)
Definition no_attribute (p : Provider) (name : string) : exn :=
  AttributeError
    ("'" ++ class_name (type p) ++ "' object has no attribute '" ++ name ++ "'").

(** ** A reference substitution engine *)

(** The engine itself is not part of this module. The instance below is
    used to run the providers on concrete inputs. *)
Module Engine.

(** The characters of a variable name. *)
Definition is_name_char (c : ascii) : bool :=
  let n := nat_of_ascii c in
  (Nat.leb 48 n && Nat.leb n 57) || (Nat.leb 65 n && Nat.leb n 90)
  || (Nat.leb 97 n && Nat.leb n 122) || Nat.eqb n 95.

(** The text that stands for a placeholder [$name] that has been read:
    the value of [name] when the mapping binds it to a string, the
    placeholder itself otherwise. *)
Definition flush (values : Values) (pending : option string) : string :=
  match pending with
  | None => ""
  | Some name =>
      match values !! name with
      | Some (VStr v) => v
      | _ => "$" ++ name
      end
  end.

(** Modelled from the spec: the Substitution Engine, which this module
    imports and which is absent from the sources, on one string: replaces
    each placeholder [$NAME] with the value of [NAME] in the mapping and
    leaves an unmatched placeholder unchanged, in a single pass.
    [pending] is the name read so far after a [$]. *)
Fixpoint substitute_string (values : Values) (pending : option string)
    (s : string) : string :=
  match s with
  | "" => flush values pending
  | String c s' =>
      match pending with
      | Some name =>
          if is_name_char c
          then substitute_string values (Some (name ++ String c "")) s'
          else flush values pending
               ++ (if bool_decide (c = "$"%char)
                   then substitute_string values (Some "") s'
                   else String c (substitute_string values None s'))
      | None =>
          if bool_decide (c = "$"%char)
          then substitute_string values (Some "") s'
          else String c (substitute_string values None s')
      end
  end.

(** Modelled from the spec: the Substitution Engine on a structure: the
    string leaves are substituted, the other leaves and the structure are
    unchanged. *)
Fixpoint substitute_all (values : Values) (data : pyval) : pyval :=
  match data with
  | VStr s => VStr (substitute_string values None s)
  | VDict m => VDict (substitute_all values <$> m)
  | _ => data
  end.

(** The mapping argument of the engine; the engine iterates a mapping. *)
Definition as_mapping (x : pyval) : exn + Values :=
  match x with
  | VDict m => inr m
  | _ => inl (TypeError ("'" ++ type_name x ++ "' object is not a mapping"))
  end.

(** Modelled from the spec: [ConfigurationSubstitutor()], absent from the
    sources; both methods apply the engine above. *)
Definition substitutor : ConfigurationSubstitutor := {|
  substitute_config_variable template_str config_variables_dict :=
    match as_mapping config_variables_dict with
    | inl e => inl e
    | inr values => inr (substitute_all values template_str)
    end;
  substitute_all_config_variables data replace_variables_dict :=
    match as_mapping replace_variables_dict with
    | inl e => inl e
    | inr values => inr (substitute_all values data)
    end
|}.

(** An engine that rejects every input, as one that finds a variable
    missing does. *)
Definition rejecting : ConfigurationSubstitutor := {|
  substitute_config_variable _ _ :=
    inl (ExternalError "MissingConfigVariableError");
  substitute_all_config_variables _ _ :=
    inl (ExternalError "MissingConfigVariableError")
|}.

End Engine.

(** ** Inputs on which the providers are run *)

Module Examples.

Definition environ : StrDict :=
  <["X" := "envval"]> (<["GX_HOME" := "/etc/gx"]> ∅).

Definition no_such_file : exn :=
  OSError (Some errno.ENOENT) "No such file or directory".

Definition permission_denied : exn :=
  OSError (Some errno.EACCES) "Permission denied".

(** A file system with one readable file. *)
Definition one_file (path contents : string) : string -> file_outcome :=
  fun p => if decide (p = path) then inr (inr contents) else inl no_such_file.

(** A file system with one file that cannot be opened. *)
Definition unreadable (path : string) : string -> file_outcome :=
  fun p => if decide (p = path) then inl permission_denied
           else inl no_such_file.

Definition chained : Values :=
  <["B" := VStr "$A"]> (<["A" := VStr "1"]> ∅).

(** Modelled from the spec: the external parser [parse(text) -> mapping],
    which is [YAMLHandler.load] of a module absent from the sources, on
    three documents: the empty document is null, [{}] is the empty
    mapping. *)
Definition yaml_load (contents : string) : exn + pyval :=
  if decide (contents = "") then inr VNone
  else if decide (contents = "{}") then inr (VDict ∅)
  else if decide (contents = "{A: '1', B: $A}") then inr (VDict chained)
  else inl (ExternalError "ParserError").

(** Modelled from the spec: the three externally-defined variable-name
    constants of [GXCloudEnvironmentVariable], absent from the sources. *)
Definition cloud_env : GXCloudEnvironmentVariable := {|
  BASE_URL := "GX_CLOUD_BASE_URL";
  ACCESS_TOKEN := "GX_CLOUD_ACCESS_TOKEN";
  ORGANIZATION_ID := "GX_CLOUD_ORGANIZATION_ID"
|}.

Definition cloud_config : GXCloudConfig := {|
  base_url := VStr "https://x";
  access_token := VStr "tok";
  organization_id := VStr "org1"
|}.

Definition runtime_environment : StrDict := {["X" := "runtime"]}.

(** The path expression of the variables file and what it resolves to
    under [environ]. *)
Definition variables_path : string := "$GX_HOME/config_variables.yml".
Definition resolved_path : string := "/etc/gx/config_variables.yml".

(** Worlds: no file at all; the variables file with a given content; the
    variables file without the permission to read it. *)
Definition world : World := mkWorld environ (fun _ => inl no_such_file).
Definition world_with (contents : string) : World :=
  mkWorld environ (one_file resolved_path contents).
Definition world_unreadable : World :=
  mkWorld environ (unreadable resolved_path).

(** A world that differs from [world_with contents] in its other files. *)
Definition world_with_more (contents : string) : World :=
  mkWorld environ
    (fun p => if decide (p = resolved_path) then inr (inr contents)
              else inr (inr "other")).

(** Instances, as their constructors build them with the reference
    engine. *)
Definition runtime : Provider :=
  RuntimeEnvironmentConfigurationProvider_ (Some Engine.substitutor)
    runtime_environment.
Definition environment : Provider :=
  EnvironmentConfigurationProvider_ (Some Engine.substitutor).
Definition variables : Provider :=
  ConfigurationVariablesConfigurationProvider_ (Some Engine.substitutor)
    variables_path None.
Definition aggregate (items : list (class * Provider)) : Provider :=
  ConfigurationProvider_ (Some Engine.substitutor) items.

End Examples.

(** ** The methods *)

Section config_provider.
(** [ConfigurationSubstitutor()], [yaml.load] of the module-level
    [YAMLHandler()] and the constants of [GXCloudEnvironmentVariable]. *)
Context (new_substitutor : ConfigurationSubstitutor).
Context (yaml_load : string -> exn + pyval).
Context (cloud_env : GXCloudEnvironmentVariable).

(** *** Constructors *)

(** [AbstractConfigurationProvider.__init__] *)
Definition AbstractConfigurationProvider_init : option ConfigurationSubstitutor :=
  Some new_substitutor.

(** [ConfigurationProvider()] *)
Definition new_ConfigurationProvider : Provider :=
  ConfigurationProvider_ AbstractConfigurationProvider_init OrderedDict.empty.

(** [RuntimeEnvironmentConfigurationProvider(runtime_environment)] *)
Definition new_RuntimeEnvironmentConfigurationProvider
    (runtime_environment : StrDict) : Provider :=
  RuntimeEnvironmentConfigurationProvider_
    AbstractConfigurationProvider_init runtime_environment.

(** [EnvironmentConfigurationProvider()] *)
Definition new_EnvironmentConfigurationProvider : Provider :=
  EnvironmentConfigurationProvider_ AbstractConfigurationProvider_init.

(** [ConfigurationVariablesConfigurationProvider(path, root_directory)] *)
Definition new_ConfigurationVariablesConfigurationProvider
    (config_variables_file_path : string) (root_directory : option string)
    : Provider :=
  ConfigurationVariablesConfigurationProvider_
    AbstractConfigurationProvider_init config_variables_file_path
    root_directory.

(** [CloudConfigurationProvider(cloud_config)]: this [__init__] does not
    call [super().__init__()]. *)
Definition new_CloudConfigurationProvider (cloud_config : GXCloudConfig)
    : Provider :=
  CloudConfigurationProvider_ None cloud_config.

(** *** [get_values] *)

(** The loop of [ConfigurationProvider.get_values]:
    [for provider in self._providers.values():
         values.update(provider.get_values())].
    [items] are the items of [self._providers] that are left to visit;
    the loop looks at the value of each. *)
Fixpoint update_all (get_values : Provider -> M pyval)
    (items : list (class * Provider)) (values : Values) : M Values :=
  match items with
  | [] => mret values
  | (_, provider) :: rest =>
      x ← get_values provider;
      values' ← lift (dict_update values x);
      update_all get_values rest values'
  end.

(** The handler [except OSError as e: if e.errno != errno.ENOENT: raise;
    return {}]. *)
Definition except_OSError (e : exn) : option (M pyval) :=
  match e with
  | OSError n _ =>
      Some (if decide (n ≠ Some errno.ENOENT) then raise e
            else mret (VDict ∅))
  | _ => None
  end.

(** [ConfigurationVariablesConfigurationProvider.get_values] *)
Definition config_variables_get_values (self : Provider)
    (config_variables_file_path : string) (root_directory : option string)
    : M pyval :=
  env_vars ← dict_os_environ;
  try_except
    (substitutor ← lift (get_substitutor self);
     defined_path ← lift (substitute_config_variable substitutor
                            (VStr config_variables_file_path)
                            (of_str_dict env_vars));
     defined_path ← lift (fspath defined_path);
     let root_directory :=
       if negb (os.path.isabs defined_path)
       then str_or root_directory os.curdir
       else "" in
     let var_path := os.path.join root_directory defined_path in
     contents ← open_read var_path;
     loaded ← lift (yaml_load contents);
     d ← lift (py_dict loaded);
     let variables := dict_or_empty d in
     substitutor ← lift (get_substitutor self);
     lift (substitute_all_config_variables substitutor
             (VDict variables) (of_str_dict env_vars)))
    except_OSError.

(** [CloudConfigurationProvider.get_values]: a dict display, evaluated
    left to right. *)
Definition cloud_get_values (cloud_config : GXCloudConfig) : Values :=
  <[ORGANIZATION_ID cloud_env := organization_id cloud_config]>
    (<[ACCESS_TOKEN cloud_env := access_token cloud_config]>
       (<[BASE_URL cloud_env := base_url cloud_config]> ∅)).

(** [provider.get_values()], dispatched on the class of [provider]. *)
Fixpoint get_values (self : Provider) : M pyval :=
  match self with
  | ConfigurationProvider_ _ providers =>
      values ← update_all get_values providers ∅;
      mret (VDict values)
  | RuntimeEnvironmentConfigurationProvider_ _ runtime_environment =>
      mret (of_str_dict runtime_environment)
  | EnvironmentConfigurationProvider_ _ =>
      env ← dict_os_environ;
      mret (of_str_dict env)
  | ConfigurationVariablesConfigurationProvider_ _ path root =>
      config_variables_get_values self path root
  | CloudConfigurationProvider_ _ cloud_config =>
      mret (VDict (cloud_get_values cloud_config))
  | Subclass_ _ _ _ get_values => get_values
  end.

(** *** [AbstractConfigurationProvider.substitute_config] *)

Definition substitute_config (self : Provider) (config : pyval)
    (config_values : option StrDict) : M pyval :=
  config_values ←
    match config_values with
    | None => get_values self
    | Some d => mret (of_str_dict d)
    end;
  substitutor ← lift (get_substitutor self);
  lift (substitute_all_config_variables substitutor config config_values).

(** *** [ConfigurationProvider.register_provider] and [get_provider] *)

(** The result is the outcome of the call and [self] after it. *)
Definition register_provider (self provider : Provider)
    : (exn + unit) * Provider :=
  match self with
  | ConfigurationProvider_ substitutor providers =>
      let type_ := type provider in
      if OrderedDict.contains type_ providers
      then (inl (ValueError ("Provider of type " ++ class_repr type_
                               ++ " has already been registered!")),
            self)
      else (inr (),
            ConfigurationProvider_ substitutor
              (OrderedDict.set type_ provider providers))
  | _ => (inl (no_attribute self "register_provider"), self)
  end.

Definition get_provider (self : Provider) (type_ : class)
    : exn + option Provider :=
  match self with
  | ConfigurationProvider_ _ providers =>
      inr (OrderedDict.get type_ providers)
  | _ => inl (no_attribute self "get_provider")
  end.

(** A sequence of calls [self.register_provider(p)], one for each [p] of
    [ps] in order; a call that raises leaves [self] as it was. *)
Definition register_each (self : Provider) (ps : list Provider) : Provider :=
  foldl (fun self p => (register_provider self p).2) self ps.

(** [self._providers] of an aggregating provider, as a list of items. *)
Definition registry (self : Provider) : list (class * Provider) :=
  match self with
  | ConfigurationProvider_ _ providers => providers
  | _ => []
  end.

(** *** The merge of the specification *)

(** The value that the left-to-right merge of [outs] gives to [k]: the one
    of the last mapping of [outs] that has [k]. *)
Fixpoint latest (k : string) (outs : list Values) : option pyval :=
  match outs with
  | [] => None
  | m :: rest =>
      match latest k rest with
      | Some v => Some v
      | None => m !! k
      end
  end.

(** *** Summaries used in the proofs *)

(** What [except_OSError] makes of an exception [e] raised in the [try]
    block after the events [evs]. *)
Definition handled (evs : list event) (e : exn) : outcome pyval :=
  mkOutcome evs
    match e with
    | OSError n _ =>
        if decide (n ≠ Some errno.ENOENT) then inl e else inr (VDict ∅)
    | _ => inl e
    end.

(** The part of [ConfigurationVariablesConfigurationProvider.get_values]
    after the file was read: parse, [dict(...) or {}], substitute. *)
Definition parse_and_substitute (substitutor : ConfigurationSubstitutor)
    (contents : string) (env_vars : StrDict) : exn + pyval :=
  match yaml_load contents with
  | inl e => inl e
  | inr loaded =>
      match py_dict loaded with
      | inl e => inl e
      | inr d =>
          substitute_all_config_variables substitutor
            (VDict (dict_or_empty d)) (of_str_dict env_vars)
      end
  end.

(** ** Properties *)

(** *** The monad *)

Lemma bind_run {A B} (m : M A) (f : A -> M B) w :
  (x ← m; f x) w =
  match result (m w) with
  | inl e => mkOutcome (events (m w)) (inl e)
  | inr a => mkOutcome (events (m w) ++ events (f a w)) (result (f a w))
  end.
Proof. reflexivity. Qed.

Lemma bind_lift_inr {A B} (a : A) (f : A -> M B) w :
  (x ← lift (inr a); f x) w = f a w.
Proof. rewrite bind_run. simpl. by destruct (f a w). Qed.

Lemma bind_lift_inl {A B} (e : exn) (f : A -> M B) w :
  (x ← lift (inl e); f x) w = mkOutcome [] (inl e).
Proof. reflexivity. Qed.

Lemma result_bind {A B} (m : M A) (f : A -> M B) w :
  result ((x ← m; f x) w) =
  match result (m w) with
  | inl e => inl e
  | inr a => result (f a w)
  end.
Proof. rewrite bind_run. by destruct (result (m w)). Qed.

Lemma events_bind {A B} (m : M A) (f : A -> M B) w :
  events ((x ← m; f x) w) =
  match result (m w) with
  | inl e => events (m w)
  | inr a => (events (m w) ++ events (f a w))%list
  end.
Proof. rewrite bind_run. by destruct (result (m w)). Qed.

(** *** The registry *)

Section ordered_dict_facts.
Context {V : Type}.
Implicit Types (d : OrderedDict.t class V) (k : class).

Lemma contains_get k d :
  OrderedDict.contains k d = bool_decide (is_Some (OrderedDict.get k d)).
Proof.
  induction d as [|[k' v] d IH]; [done|].
  cbn [OrderedDict.contains OrderedDict.get existsb fst].
  destruct (decide (k' = k)) as [->|Hne].
  - rewrite bool_decide_eq_true_2 by done.
    symmetry. apply bool_decide_eq_true_2. eauto.
  - rewrite bool_decide_eq_false_2 by done. exact IH.
Qed.

Lemma get_set_eq k v d : OrderedDict.get k (OrderedDict.set k v d) = Some v.
Proof.
  induction d as [|[k' v'] d IH]; simpl.
  - by rewrite decide_True.
  - destruct (decide (k' = k)) as [->|Hne]; simpl.
    + by rewrite decide_True.
    + by rewrite decide_False.
Qed.

Lemma get_set_ne k k' v d :
  k' ≠ k -> OrderedDict.get k (OrderedDict.set k' v d) = OrderedDict.get k d.
Proof.
  intros Hne. induction d as [|[k0 v0] d IH]; simpl.
  - by rewrite decide_False.
  - destruct (decide (k0 = k')) as [->|Hne0]; simpl.
    + by rewrite !decide_False.
    + destruct (decide (k0 = k)); [done | exact IH].
Qed.

(** A key that is absent is appended. *)
Lemma set_absent k v d :
  OrderedDict.get k d = None -> OrderedDict.set k v d = (d ++ [(k, v)])%list.
Proof.
  induction d as [|[k' v'] d IH]; simpl; [done|].
  destruct (decide (k' = k)); [done|]. intros H. by rewrite IH.
Qed.
End ordered_dict_facts.

Lemma register_each_cons self p ps :
  register_each self (p :: ps) = register_each (register_provider self p).2 ps.
Proof. reflexivity. Qed.

(** What a lookup finds after a sequence of registrations on any registry:
    the entry that was there, else the first of the sequence with that
    class. *)
Lemma get_provider_register_each substitutor providers ps type_ :
  get_provider
    (register_each (ConfigurationProvider_ substitutor providers) ps) type_ =
  inr (match OrderedDict.get type_ providers with
       | Some q => Some q
       | None => find (fun p => bool_decide (type p = type_)) ps
       end).
Proof.
  revert providers. induction ps as [|p ps IH]; intros providers.
  - simpl. by destruct (OrderedDict.get type_ providers).
  - rewrite register_each_cons. simpl register_provider.
    rewrite contains_get.
    destruct (OrderedDict.get (type p) providers) as [q|] eqn:Hq.
    + rewrite bool_decide_eq_true_2 by eauto. simpl. rewrite IH.
      destruct (OrderedDict.get type_ providers) eqn:Hk; [done|].
      rewrite bool_decide_eq_false_2; [done|]. congruence.
    + rewrite bool_decide_eq_false_2 by (by intros [? ?]). simpl. rewrite IH.
      destruct (decide (type p = type_)) as [<-|Hne].
      * rewrite get_set_eq, Hq. by rewrite bool_decide_eq_true_2.
      * rewrite get_set_ne by done.
        by rewrite (bool_decide_eq_false_2 _ Hne).
Qed.

(** The registry after registering providers of pairwise-distinct classes
    on an empty one: the providers, in order, each under its class. *)
Lemma register_each_distinct substitutor providers ps :
  NoDup (providers.*1 ++ (type <$> ps))%list ->
  register_each (ConfigurationProvider_ substitutor providers) ps =
  ConfigurationProvider_ substitutor
    (providers ++ ((fun p => (type p, p)) <$> ps))%list.
Proof.
  revert providers. induction ps as [|p ps IH]; intros providers Hnd.
  - simpl. by rewrite app_nil_r.
  - rewrite register_each_cons. simpl register_provider.
    assert (OrderedDict.get (type p) providers = None) as Hnone.
    { destruct (OrderedDict.get (type p) providers) eqn:Hg; [|done].
      exfalso. apply NoDup_app in Hnd as (_ & Hdisj & _).
      apply (Hdisj (type p)); [|simpl; left].
      clear -Hg. induction providers as [|[k v] d IHd]; [done|].
      simpl in *. destruct (decide (k = type p)) as [->|]; [left|right; auto]. }
    rewrite contains_get, Hnone.
    rewrite bool_decide_eq_false_2 by (by intros [? ?]). simpl.
    rewrite set_absent by done. rewrite IH.
    + by rewrite <-app_assoc.
    + rewrite fmap_app. simpl. rewrite <-app_assoc. exact Hnd.
Qed.

(** *** [register_provider] and [get_provider] *)

(** C3. Calling [register_provider] with a provider whose class is already
    in the registry raises the duplicate-registration error (a
    [ValueError] in the code) and leaves the aggregating provider exactly
    as it was: the registry is the same list, in the same order, and the
    first-registered instance of that class is still what [get_provider]
    returns. *)
Theorem register_provider_duplicate substitutor providers provider first :
  OrderedDict.get (type provider) providers = Some first ->
  let self := ConfigurationProvider_ substitutor providers in
  register_provider self provider =
    (inl (ValueError ("Provider of type " ++ class_repr (type provider)
                        ++ " has already been registered!")),
     self)
  /\ get_provider (register_provider self provider).2 (type provider) =
     inr (Some first).
Proof.
  intros Hfirst self. unfold self. simpl register_provider.
  rewrite contains_get, Hfirst.
  rewrite bool_decide_eq_true_2 by eauto.
  split; [reflexivity|]. simpl. by rewrite Hfirst.
Qed.

(** C8. After any sequence of registrations on a new aggregating provider,
    [get_provider(type_)] raises nothing and returns the first provider of
    the sequence whose class is [type_] (the one registration accepted),
    and [None] when the sequence has no provider of that class. *)
Theorem get_provider_registered ps type_ :
  get_provider (register_each new_ConfigurationProvider ps) type_ =
  inr (find (fun p => bool_decide (type p = type_)) ps).
Proof.
  unfold new_ConfigurationProvider.
  by rewrite get_provider_register_each.
Qed.

(** *** [ConfigurationProvider.get_values] *)

Lemma update_all_latest w items values outs :
  Forall2 (fun item m => result (get_values item.2 w) = inr (VDict m))
    items outs ->
  exists values',
    result (update_all get_values items values w) = inr values'
    /\ forall k, values' !! k =
         match latest k outs with
         | Some v => Some v
         | None => values !! k
         end.
Proof.
  intros H. revert values.
  induction H as [|[c p] m items outs Hp _ IH]; intros values.
  - exists values. by split.
  - simpl in Hp. cbn [update_all]. rewrite result_bind, Hp.
    cbn [dict_update]. rewrite bind_lift_inr.
    destruct (IH (m ∪ values)) as (values' & Hres & Hlook).
    exists values'. split; [exact Hres|].
    intros k. rewrite Hlook. cbn [latest].
    destruct (latest k outs); [done|].
    rewrite lookup_union. by destruct (m !! k), (values !! k).
Qed.

(** C1. Register providers [ps] of pairwise-distinct classes, in order, on
    a new aggregating provider. If the [get_values()] of each returns a
    mapping, the aggregating provider's [get_values()] returns the
    left-to-right merge of these mappings in registration order: a key has
    the value of the last-registered provider whose mapping has it. *)
Theorem get_values_merge ps outs w :
  NoDup (type <$> ps) ->
  Forall2 (fun p m => result (get_values p w) = inr (VDict m)) ps outs ->
  exists merged,
    result (get_values (register_each new_ConfigurationProvider ps) w)
      = inr (VDict merged)
    /\ forall k, merged !! k = latest k outs.
Proof.
  intros Hnd Hout. unfold new_ConfigurationProvider.
  rewrite register_each_distinct by exact Hnd.
  cbn [get_values app OrderedDict.empty]. rewrite result_bind.
  destruct (update_all_latest w ((fun p => (type p, p)) <$> ps) ∅ outs)
    as (merged & Hres & Hlook).
  { clear -Hout. induction Hout; constructor; auto. }
  rewrite Hres. exists merged. split; [reflexivity|].
  intros k. rewrite Hlook, lookup_empty. by destruct (latest k outs).
Qed.

(** *** [ConfigurationVariablesConfigurationProvider.get_values] *)

Lemma dict_or_empty_id (d : Values) : dict_or_empty d = d.
Proof. unfold dict_or_empty. by destruct (decide (d = ∅)). Qed.

Lemma py_dict_VDict (m : Values) : py_dict (VDict m) = inr m.
Proof. unfold py_dict. simpl. by rewrite (right_id_L ∅ (∪)). Qed.

(** The run of [get_values] once the path expression has been substituted
    to the string [defined_path]. *)
Lemma config_variables_run substitutor path root w defined_path :
  substitute_config_variable substitutor (VStr path)
    (of_str_dict (os_environ w)) = inr (VStr defined_path) ->
  let var_path :=
    os.path.join
      (if negb (os.path.isabs defined_path) then str_or root os.curdir else "")
      defined_path in
  get_values
    (ConfigurationVariablesConfigurationProvider_ (Some substitutor) path root)
    w =
  match filesystem w var_path with
  | inl e => handled [EvEnviron; EvOpen var_path] e
  | inr r =>
      let evs := [EvEnviron; EvOpen var_path; EvRead var_path;
                  EvClose var_path] in
      match r with
      | inl e => handled evs e
      | inr contents =>
          match parse_and_substitute substitutor contents (os_environ w) with
          | inl e => handled evs e
          | inr v => mkOutcome evs (inr v)
          end
      end
  end.
Proof.
  intros Hpath var_path. cbn [get_values].
  unfold config_variables_get_values, try_except, handled.
  unfold mbind, M_bind, bind, lift, dict_os_environ, open_read.
  cbn -[os.path.join os.path.isabs str_or decide]. rewrite Hpath.
  cbn -[os.path.join os.path.isabs str_or decide].
  fold var_path.
  assert (forall (e : exn) (evs : list event),
            let o :=
              match except_OSError e with
              | Some k => mkOutcome (evs ++ events (k w)) (result (k w))
              | None => mkOutcome evs (inl e)
              end in
            mkOutcome (EvEnviron :: events o) (result o)
            = handled (EvEnviron :: evs) e) as Hhandled.
  { intros [| | |n msg|] evs; try reflexivity. unfold handled. simpl.
    destruct (decide (n ≠ Some errno.ENOENT)); simpl;
      by rewrite app_nil_r. }
  destruct (filesystem w var_path) as [e|[e|contents]].
  - exact (Hhandled e [EvOpen var_path]).
  - exact (Hhandled e [EvOpen var_path; EvRead var_path; EvClose var_path]).
  - unfold parse_and_substitute.
    pose proof (fun e => Hhandled e [EvOpen var_path; EvRead var_path;
                                     EvClose var_path]) as Hh.
    clear Hhandled.
    cbn -[os.path.join os.path.isabs str_or decide except_OSError].
    destruct (yaml_load contents) as [e|loaded];
      cbn -[os.path.join os.path.isabs str_or decide except_OSError];
      [exact (Hh e)|].
    destruct (py_dict loaded) as [e|d];
      cbn -[os.path.join os.path.isabs str_or decide except_OSError];
      [exact (Hh e)|].
    destruct (substitute_all_config_variables _ _ _) as [e|v];
      cbn -[os.path.join os.path.isabs str_or decide except_OSError];
      [|done].
    exact (Hh e).
Qed.

(** The events of a [handled] exception are the ones before it. *)
Lemma events_handled evs e : events (handled evs e) = evs.
Proof. reflexivity. Qed.

(** Once the path expression is substituted to a string, exactly one file
    is opened: the one at [var_path]. *)
Lemma config_variables_opened substitutor path root w defined_path :
  substitute_config_variable substitutor (VStr path)
    (of_str_dict (os_environ w)) = inr (VStr defined_path) ->
  opened_paths
    (events
       (get_values
          (ConfigurationVariablesConfigurationProvider_ (Some substitutor)
             path root) w)) =
  [os.path.join
     (if negb (os.path.isabs defined_path) then str_or root os.curdir else "")
     defined_path].
Proof.
  intros Hpath. rewrite (config_variables_run _ _ _ _ _ Hpath).
  cbv zeta.
  destruct (filesystem w _) as [e|[e|contents]]; [done|done|].
  by destruct (parse_and_substitute _ _ _).
Qed.

(** If the path expression is not substituted to a string, no file is
    opened. *)
Lemma config_variables_not_opened substitutor path root w :
  (forall defined_path,
      substitute_config_variable substitutor (VStr path)
        (of_str_dict (os_environ w)) <> inr (VStr defined_path)) ->
  opened_paths
    (events
       (get_values
          (ConfigurationVariablesConfigurationProvider_ (Some substitutor)
             path root) w)) = [].
Proof.
  intros Hpath. cbn [get_values].
  unfold config_variables_get_values, try_except.
  unfold mbind, M_bind, bind, lift, dict_os_environ, open_read.
  cbn -[os.path.join os.path.isabs str_or decide].
  destruct (substitute_config_variable _ _ _) as [e|v].
  - destruct e as [| | |n msg|]; try reflexivity. simpl.
    by destruct (decide (n ≠ Some errno.ENOENT)).
  - destruct v; try reflexivity. by destruct (Hpath s).
Qed.

(** The file that a run opened determines the substituted path. *)
Lemma config_variables_opened_inv substitutor path root w p :
  opened_paths
    (events
       (get_values
          (ConfigurationVariablesConfigurationProvider_ (Some substitutor)
             path root) w)) = [p] ->
  exists defined_path,
    substitute_config_variable substitutor (VStr path)
      (of_str_dict (os_environ w)) = inr (VStr defined_path)
    /\ p = os.path.join
             (if negb (os.path.isabs defined_path)
              then str_or root os.curdir else "")
             defined_path.
Proof.
  intros Hopen.
  destruct (substitute_config_variable substitutor (VStr path)
              (of_str_dict (os_environ w))) as [e|v] eqn:Hsub.
  - rewrite config_variables_not_opened in Hopen; [done|].
    intros d. by rewrite Hsub.
  - destruct v as [| | |defined_path|];
      try (rewrite config_variables_not_opened in Hopen;
           [done | intros d; by rewrite Hsub]).
    exists defined_path. split; [done|].
    rewrite (config_variables_opened _ _ _ _ _ Hsub) in Hopen.
    by inversion Hopen.
Qed.

(** C2. When opening or reading the file that [get_values] opens fails
    with an exception [e]: if [e] is an [OSError] whose [errno] is
    [ENOENT] (file not found), [get_values] returns an empty mapping and
    raises nothing; otherwise (permission denied, is a directory, any
    other failure) it raises that same exception [e]. *)
Theorem get_values_read_failure path root w p e :
  let self := new_ConfigurationVariablesConfigurationProvider path root in
  opened_paths (events (get_values self w)) = [p] ->
  read_failure (filesystem w p) = Some e ->
  result (get_values self w) =
  match e with
  | OSError n _ =>
      if decide (n = Some errno.ENOENT) then inr (VDict ∅) else inl e
  | _ => inl e
  end.
Proof.
  intros self Hopen Hfail. unfold self in *.
  unfold new_ConfigurationVariablesConfigurationProvider,
    AbstractConfigurationProvider_init in *.
  destruct (config_variables_opened_inv _ _ _ _ _ Hopen)
    as (defined_path & Hpath & ->).
  rewrite (config_variables_run _ _ _ _ _ Hpath). cbv zeta.
  destruct (filesystem w _) as [e'|[e'|contents]]; simplify_eq/=.
  - destruct e as [| | |n msg|]; try reflexivity.
    by destruct (decide (n ≠ Some errno.ENOENT)), (decide (n = Some errno.ENOENT)).
  - destruct e as [| | |n msg|]; try reflexivity.
    by destruct (decide (n ≠ Some errno.ENOENT)), (decide (n = Some errno.ENOENT)).
Qed.

(** C6. The path expression is first substituted by the engine against
    [dict(os.environ)] of the moment of the call. When that gives the
    string [defined_path], the one file that [get_values] opens is
    [defined_path] itself if it is absolute, and otherwise
    [defined_path] joined to the root directory given at construction, or
    to [os.curdir] (the current working directory) when none was given
    ([None], or the empty string, which is no directory). *)
Theorem get_values_resolved_path path root w defined_path :
  substitute_config_variable new_substitutor (VStr path)
    (of_str_dict (os_environ w)) = inr (VStr defined_path) ->
  let self := new_ConfigurationVariablesConfigurationProvider path root in
  let opened := opened_paths (events (get_values self w)) in
  (os.path.isabs defined_path = true -> opened = [defined_path])
  /\ (os.path.isabs defined_path = false ->
      (forall r, root = Some r -> r <> "" ->
                 opened = [os.path.join r defined_path])
      /\ (root = None -> opened = [os.path.join os.curdir defined_path])
      /\ (root = Some "" -> opened = [os.path.join os.curdir defined_path])).
Proof.
  intros Hpath self opened. unfold opened, self.
  unfold new_ConfigurationVariablesConfigurationProvider,
    AbstractConfigurationProvider_init.
  rewrite (config_variables_opened _ _ _ _ _ Hpath).
  split.
  - intros Habs. rewrite Habs. cbn [negb].
    unfold os.path.join. unfold os.path.isabs in Habs. by rewrite Habs.
  - intros Hrel. rewrite Hrel. cbn [negb].
    repeat split.
    + intros r -> Hr. by destruct r.
    + by intros ->.
    + by intros ->.
Qed.

(** *** Parsing *)

(** The run on a file that was read and whose content the parser turns
    into the object [loaded]. *)
Lemma config_variables_parsed path root w p contents :
  let self := new_ConfigurationVariablesConfigurationProvider path root in
  opened_paths (events (get_values self w)) = [p] ->
  filesystem w p = inr (inr contents) ->
  get_values self w =
  let evs := [EvEnviron; EvOpen p; EvRead p; EvClose p] in
  match parse_and_substitute new_substitutor contents (os_environ w) with
  | inl e => handled evs e
  | inr v => mkOutcome evs (inr v)
  end.
Proof.
  intros self Hopen Hfile. unfold self in *.
  unfold new_ConfigurationVariablesConfigurationProvider,
    AbstractConfigurationProvider_init in *.
  destruct (config_variables_opened_inv _ _ _ _ _ Hopen)
    as (defined_path & Hpath & ->).
  rewrite (config_variables_run _ _ _ _ _ Hpath). cbv zeta.
  by rewrite Hfile.
Qed.

(** When the parser returns the empty mapping, [get_values] goes on and
    returns what the engine makes of the empty mapping. *)
Lemma get_values_empty_document path root w p contents v :
  let self := new_ConfigurationVariablesConfigurationProvider path root in
  opened_paths (events (get_values self w)) = [p] ->
  filesystem w p = inr (inr contents) ->
  yaml_load contents = inr (VDict ∅) ->
  substitute_all_config_variables new_substitutor (VDict ∅)
    (of_str_dict (os_environ w)) = inr v ->
  result (get_values self w) = inr v.
Proof.
  intros self Hopen Hfile Hyaml Hsub. subst self.
  rewrite (config_variables_parsed _ _ _ _ _ Hopen Hfile). cbv zeta.
  unfold parse_and_substitute.
  by rewrite Hyaml, py_dict_VDict, dict_or_empty_id, Hsub.
Qed.

(** C4 (the null half, where the code departs from the claim). When the
    parser returns [None] for the content of the file, [dict(None)] raises
    a [TypeError] before [or {}] is evaluated, and [get_values] raises it:
    the null result is not treated as an empty mapping. *)
Theorem get_values_null_document path root w p contents :
  let self := new_ConfigurationVariablesConfigurationProvider path root in
  opened_paths (events (get_values self w)) = [p] ->
  filesystem w p = inr (inr contents) ->
  yaml_load contents = inr VNone ->
  result (get_values self w) =
  inl (TypeError "'NoneType' object is not iterable").
Proof.
  intros self Hopen Hfile Hyaml. subst self.
  rewrite (config_variables_parsed _ _ _ _ _ Hopen Hfile). cbv zeta.
  unfold parse_and_substitute. by rewrite Hyaml.
Qed.

(** C9. When the file is read and parsed to the mapping [variables],
    [get_values] returns the result of one call of the engine on
    [variables] with [dict(os.environ)] as the only source of values. So
    when the engine substitutes the entries of a mapping one by one (the
    entry [x] becomes [leaf x], which depends on [x] and the environment),
    the value that [get_values] returns for a key is [leaf] of the value
    the file gives to that key: the other keys of the file play no part,
    and a reference to one of them is not resolved. *)
Theorem get_values_single_pass path root w p contents variables :
  let self := new_ConfigurationVariablesConfigurationProvider path root in
  let env_vars := of_str_dict (os_environ w) in
  opened_paths (events (get_values self w)) = [p] ->
  filesystem w p = inr (inr contents) ->
  yaml_load contents = inr (VDict variables) ->
  (forall v,
      substitute_all_config_variables new_substitutor (VDict variables)
        env_vars = inr v ->
      result (get_values self w) = inr v)
  /\ (forall leaf : pyval -> pyval,
         (forall m,
             substitute_all_config_variables new_substitutor (VDict m)
               env_vars = inr (VDict (leaf <$> m))) ->
         exists out,
           result (get_values self w) = inr (VDict out)
           /\ forall k, out !! k = leaf <$> variables !! k).
Proof.
  intros self env_vars Hopen Hfile Hyaml. subst self.
  assert (forall v,
             substitute_all_config_variables new_substitutor (VDict variables)
               env_vars = inr v ->
             result
               (get_values
                  (new_ConfigurationVariablesConfigurationProvider path root)
                  w) = inr v) as Hpass.
  { intros v Hsub.
    rewrite (config_variables_parsed _ _ _ _ _ Hopen Hfile). cbv zeta.
    unfold parse_and_substitute.
    rewrite Hyaml, py_dict_VDict, dict_or_empty_id.
    fold env_vars. by rewrite Hsub. }
  split; [exact Hpass|].
  intros leaf Hleaf. exists (leaf <$> variables). split.
  - apply Hpass, Hleaf.
  - intros k. apply lookup_fmap.
Qed.

(** *** [substitute_config] *)

(** With [config_values] omitted, [substitute_config] on an instance that
    has its [_substitutor] calls [get_values()] and hands [config] and the
    values to the engine. *)
Lemma substitute_config_delegates self substitutor config w :
  get_substitutor self = inr substitutor ->
  substitute_config self config None w =
  (values ← get_values self;
   lift (substitute_all_config_variables substitutor config values)) w.
Proof.
  intros Hsub. unfold substitute_config.
  rewrite !bind_run. destruct (result (get_values self w)); [done|].
  by rewrite Hsub.
Qed.

(** The four classes whose [__init__] calls [super().__init__()]. *)
Lemma get_substitutor_new self :
  self = new_ConfigurationProvider
  \/ (exists d, self = new_RuntimeEnvironmentConfigurationProvider d)
  \/ self = new_EnvironmentConfigurationProvider
  \/ (exists path root,
         self = new_ConfigurationVariablesConfigurationProvider path root) ->
  get_substitutor self = inr new_substitutor.
Proof.
  intros [->|[[d ->]|[->|(path & root & ->)]]]; reflexivity.
Qed.

(** C5 (the case where the code departs from the claim). On a
    Cloud-Credentials provider, [substitute_config] with [config_values]
    omitted calls [get_values()] and then raises [AttributeError]: the
    constructor never set [_substitutor], so nothing is delegated to the
    engine and no substituted object is returned. *)
Theorem substitute_config_cloud cloud_config config w :
  substitute_config (new_CloudConfigurationProvider cloud_config) config None w
  = mkOutcome []
      (inl (AttributeError
              "'CloudConfigurationProvider' object has no attribute '_substitutor'")).
Proof. reflexivity. Qed.

(** *** [CloudConfigurationProvider.get_values] *)

(** C7. When the three key names are pairwise distinct, [get_values()] of
    a Cloud-Credentials provider returns a mapping with exactly three
    entries, which bind the three names to [base_url], [access_token] and
    [organization_id] of the record; it performs no I/O (no event, and
    the same outcome in every world). *)
Theorem cloud_get_values_three cloud_config w :
  BASE_URL cloud_env <> ACCESS_TOKEN cloud_env ->
  BASE_URL cloud_env <> ORGANIZATION_ID cloud_env ->
  ACCESS_TOKEN cloud_env <> ORGANIZATION_ID cloud_env ->
  exists values : Values,
    (forall w', get_values (new_CloudConfigurationProvider cloud_config) w'
                = mkOutcome [] (inr (VDict values)))
    /\ events (get_values (new_CloudConfigurationProvider cloud_config) w) = []
    /\ size values = 3
    /\ values !! BASE_URL cloud_env = Some (base_url cloud_config)
    /\ values !! ACCESS_TOKEN cloud_env = Some (access_token cloud_config)
    /\ values !! ORGANIZATION_ID cloud_env
       = Some (organization_id cloud_config).
Proof.
  intros Hba Hbo Hao. exists (cloud_get_values cloud_config).
  pose proof (not_eq_sym Hba) as Hab.
  pose proof (not_eq_sym Hbo) as Hob.
  pose proof (not_eq_sym Hao) as Hoa.
  unfold cloud_get_values.
  split; [reflexivity|]. split; [reflexivity|]. split; [|split; [|split]].
  - rewrite map_size_insert_None.
    + rewrite map_size_insert_None.
      * by rewrite map_size_insert_None, map_size_empty.
      * by rewrite lookup_insert_ne.
    + by rewrite !lookup_insert_ne by done.
  - by rewrite !lookup_insert_ne, lookup_insert_eq by done.
  - by rewrite lookup_insert_ne, lookup_insert_eq by done.
  - by rewrite lookup_insert_eq.
Qed.

(** *** [EnvironmentConfigurationProvider.get_values] *)

Lemma of_str_dict_inj (d1 d2 : StrDict) :
  of_str_dict d1 = of_str_dict d2 -> d1 = d2.
Proof.
  unfold of_str_dict. intros [= H].
  eapply (map_fmap_inj VStr); [|exact H]. by intros ? ? [= ->].
Qed.

(** C10. [get_values()] of the Process-Environment provider, an object
    that holds no environment of its own, reads [os.environ] at each call
    and returns a copy of the process environment of the world in which
    the call is made. Two calls made in worlds with different
    environments return different mappings, each equal to the environment
    of its call; after [os.environ[k] = v] a new call binds [k] to [v]. *)
Theorem environment_get_values_snapshot w1 w2 k v :
  let self := new_EnvironmentConfigurationProvider in
  get_values self w1 = mkOutcome [EvEnviron] (inr (of_str_dict (os_environ w1)))
  /\ get_values self w2
     = mkOutcome [EvEnviron] (inr (of_str_dict (os_environ w2)))
  /\ (os_environ w1 <> os_environ w2 <->
      result (get_values self w1) <> result (get_values self w2))
  /\ (exists values,
         result (get_values self (setenv k v w1)) = inr (VDict values)
         /\ values !! k = Some (VStr v)
         /\ forall k', k' <> k ->
              values !! k' = VStr <$> os_environ w1 !! k').
Proof.
  intros self. split; [reflexivity|]. split; [reflexivity|]. split.
  - split.
    + intros Hne [= Heq]. by apply Hne, of_str_dict_inj; unfold of_str_dict;
        rewrite Heq.
    + intros Hne Heq. apply Hne. simpl. by rewrite Heq.
  - exists (VStr <$> <[k := v]> (os_environ w1)). split; [reflexivity|].
    split.
    + by rewrite lookup_fmap, lookup_insert_eq.
    + intros k' Hk. by rewrite !lookup_fmap, lookup_insert_ne.
Qed.

(** ** Further properties of the registry *)

Lemma contains_elem_of (k : class) (d : list (class * Provider)) :
  OrderedDict.contains k d = true <-> k ∈ d.*1.
Proof.
  induction d as [|[k' v] d IH].
  - split; [done|]. by intros ?%elem_of_nil.
  - cbn [OrderedDict.contains existsb fst fmap list_fmap].
    rewrite orb_true_iff, IH, elem_of_cons, bool_decide_eq_true.
    simpl. split; (intros [?|?]; [by left|by right]).
Qed.

Lemma get_None_not_elem_of (k : class) (d : list (class * Provider)) :
  OrderedDict.get k d = None <-> k ∉ d.*1.
Proof.
  rewrite <-contains_elem_of, contains_get.
  destruct (OrderedDict.get k d) as [q|].
  - rewrite bool_decide_eq_true_2 by eauto. split; [done|]. by intros [].
  - rewrite bool_decide_eq_false_2 by (by intros [? ?]). split; [|done].
    by intros _ ?.
Qed.


(** The registry after one call of [register_provider]. *)
Lemma registry_register_provider substitutor providers provider :
  registry
    (register_provider (ConfigurationProvider_ substitutor providers)
       provider).2 =
  if OrderedDict.contains (type provider) providers then providers
  else (providers ++ [(type provider, provider)])%list.
Proof.
  simpl register_provider.
  destruct (OrderedDict.contains (type provider) providers) eqn:Hc; [done|].
  simpl. apply set_absent. apply get_None_not_elem_of.
  rewrite <-contains_elem_of. by rewrite Hc.
Qed.

Lemma register_provider_aggregator substitutor providers provider :
  (register_provider (ConfigurationProvider_ substitutor providers)
     provider).2 =
  ConfigurationProvider_ substitutor
    (registry
       (register_provider (ConfigurationProvider_ substitutor providers)
          provider).2).
Proof.
  simpl. by destruct (OrderedDict.contains (type provider) providers).
Qed.

(** X1. Registering a provider whose class is not yet in the registry
    raises nothing and appends it as the last entry, after the entries
    that were there, which keep their order; [get_provider] then returns
    it for its class and what it returned before for every other class. *)
Theorem register_provider_new substitutor providers provider :
  OrderedDict.get (type provider) providers = None ->
  let self := ConfigurationProvider_ substitutor providers in
  register_provider self provider =
    (inr (),
     ConfigurationProvider_ substitutor
       (providers ++ [(type provider, provider)])%list)
  /\ get_provider (register_provider self provider).2 (type provider)
     = inr (Some provider)
  /\ forall type_,
       type_ <> type provider ->
       get_provider (register_provider self provider).2 type_
       = get_provider self type_.
Proof.
  intros Hnone self. unfold self. simpl register_provider.
  rewrite contains_get, Hnone.
  rewrite bool_decide_eq_false_2 by (by intros [? ?]).
  rewrite (set_absent _ _ _ Hnone). split; [done|].
  rewrite <-(set_absent _ _ _ Hnone). simpl. split.
  - by rewrite get_set_eq.
  - intros type_ Hne. by rewrite get_set_ne.
Qed.

(** The invariant of the registry, kept by every registration. *)
Lemma register_each_invariant substitutor providers ps :
  NoDup providers.*1 ->
  Forall (fun item => item.1 = type item.2) providers ->
  exists accepted,
    register_each (ConfigurationProvider_ substitutor providers) ps
    = ConfigurationProvider_ substitutor
        (providers ++ ((fun p => (type p, p)) <$> accepted))%list
    /\ accepted `sublist_of` ps
    /\ NoDup (providers ++ ((fun p => (type p, p)) <$> accepted))%list.*1
    /\ Forall (fun item => item.1 = type item.2)
         (providers ++ ((fun p => (type p, p)) <$> accepted))%list.
Proof.
  revert providers. induction ps as [|p ps IH]; intros providers Hnd Hty.
  - exists []. simpl. rewrite app_nil_r. by repeat split.
  - rewrite register_each_cons, register_provider_aggregator,
      registry_register_provider.
    destruct (OrderedDict.contains (type p) providers) eqn:Hc.
    + destruct (IH providers Hnd Hty) as (accepted & Heq & Hsub & Hnd' & Hty').
      exists accepted. repeat split; try done. by apply sublist_cons.
    + assert (type p ∉ providers.*1) as Hnotin.
      { rewrite <-contains_elem_of. by rewrite Hc. }
      destruct (IH (providers ++ [(type p, p)])%list)
        as (accepted & Heq & Hsub & Hnd' & Hty').
      { rewrite fmap_app. apply NoDup_app. split; [done|]. split.
        - intros k Hk Hk'. simpl in Hk'. apply list_elem_of_singleton in Hk'.
          by subst k.
        - simpl. apply NoDup_singleton. }
      { apply Forall_app. split; [done|]. by repeat constructor. }
      exists (p :: accepted). rewrite Heq.
      rewrite <-!app_assoc in *. simpl in *.
      repeat split; try done. by apply sublist_skip.
Qed.

(** X2. After any sequence of registrations on a new aggregating
    provider the registry holds at most one instance per class, each
    stored under its own class, and the instances it holds are providers
    of the sequence in the order in which they were registered. *)
Theorem registry_invariant ps :
  let providers := registry (register_each new_ConfigurationProvider ps) in
  NoDup providers.*1
  /\ Forall (fun item => item.1 = type item.2) providers
  /\ providers.*2 `sublist_of` ps.
Proof.
  intros providers. unfold providers, new_ConfigurationProvider.
  destruct (register_each_invariant AbstractConfigurationProvider_init
              OrderedDict.empty ps) as (accepted & -> & Hsub & Hnd & Hty).
  { constructor. }
  { constructor. }
  simpl in *. split; [done|]. split; [done|].
  replace (((fun p => (type p, p)) <$> accepted).*2) with accepted; [done|].
  clear. induction accepted as [|a l IH]; [done|]. cbn. by f_equal.
Qed.

(** X3. An instance that [get_provider] returns for a class is still the
    one it returns after any further registrations: a registered provider
    is never replaced or removed. *)
Theorem get_provider_stable substitutor providers ps type_ q :
  let self := ConfigurationProvider_ substitutor providers in
  get_provider self type_ = inr (Some q) ->
  get_provider (register_each self ps) type_ = inr (Some q).
Proof.
  intros self Hq. unfold self in *. simpl in Hq. injection Hq as Hq.
  by rewrite get_provider_register_each, Hq.
Qed.



(** ** Further properties of [ConfigurationProvider.get_values] *)

Lemma bind_assoc {A B C} (m : M A) (f : A -> M B) (g : B -> M C) w :
  (y ← (x ← m; f x); g y) w = (x ← m; y ← f x; g y) w.
Proof.
  rewrite !bind_run. destruct (result (m w)) as [e|a]; [done|].
  cbn [result events]. rewrite !bind_run.
  destruct (result (f a w)) as [e|b]; cbn [result events]; [done|].
  by rewrite app_assoc.
Qed.

Lemma bind_ext {A B} (m : M A) (f g : A -> M B) w :
  (forall a, f a w = g a w) -> (x ← m; f x) w = (x ← m; g x) w.
Proof.
  intros Hfg. rewrite !bind_run. destruct (result (m w)); [done|].
  by rewrite Hfg.
Qed.

Lemma bind_mret_l {A B} (a : A) (f : A -> M B) w : (x ← mret a; f x) w = f a w.
Proof. rewrite bind_run. simpl. by destruct (f a w). Qed.

Lemma dict_update_acc (values : Values) (x : pyval) :
  dict_update values x =
  match dict_update ∅ x with
  | inl e => inl e
  | inr v => inr (v ∪ values)
  end.
Proof.
  destruct x as [| | |s|m]; try done.
  - destruct s; [|done]. simpl. by rewrite (left_id_L ∅ (∪)).
  - simpl. by rewrite (right_id_L ∅ (∪)).
Qed.

(** The loop started on [values] does what the loop started on the empty
    dict does, and lays its result over [values]. *)
Lemma update_all_acc items values w :
  update_all get_values items values w =
  mkOutcome (events (update_all get_values items ∅ w))
    match result (update_all get_values items ∅ w) with
    | inl e => inl e
    | inr v => inr (v ∪ values)
    end.
Proof.
  revert values. induction items as [|[c p] items IH]; intros values.
  - simpl. by rewrite (left_id_L ∅ (∪)).
  - cbn [update_all]. rewrite !bind_run.
    destruct (result (get_values p w)) as [e|x]; [done|].
    rewrite (dict_update_acc values x).
    destruct (dict_update ∅ x) as [e|v]; [done|].
    rewrite !bind_lift_inr. rewrite (IH (v ∪ values)), (IH v).
    cbn [events result].
    destruct (result (update_all get_values items ∅ w)) as [e|v']; [done|].
    by rewrite (assoc_L (∪)).
Qed.

Lemma update_all_app items1 items2 values w :
  update_all get_values (items1 ++ items2) values w =
  (values' ← update_all get_values items1 values;
   update_all get_values items2 values') w.
Proof.
  revert values. induction items1 as [|[c p] items1 IH]; intros values.
  - simpl app. cbn [update_all]. by rewrite bind_mret_l.
  - simpl app. cbn [update_all]. rewrite bind_assoc.
    apply bind_ext. intros x. rewrite bind_assoc.
    apply bind_ext. intros values'. apply IH.
Qed.

(** [ConfigurationProvider.get_values] in terms of its loop. *)
Lemma get_values_aggregate substitutor items w :
  get_values (ConfigurationProvider_ substitutor items) w =
  mkOutcome (events (update_all get_values items ∅ w))
    match result (update_all get_values items ∅ w) with
    | inl e => inl e
    | inr v => inr (VDict v)
    end.
Proof.
  cbn [get_values]. rewrite bind_run.
  destruct (result (update_all get_values items ∅ w)); [done|].
  simpl. by rewrite app_nil_r.
Qed.

Lemma get_values_aggregate_inv substitutor items w values :
  result (get_values (ConfigurationProvider_ substitutor items) w)
  = inr (VDict values) ->
  result (update_all get_values items ∅ w) = inr values.
Proof.
  rewrite get_values_aggregate. cbn [result].
  destruct (result (update_all get_values items ∅ w)); [done|].
  by intros [= ->].
Qed.

(** X5. After a registration that is accepted, the aggregating provider
    returns the mapping of the new provider laid over the mapping it
    returned before (the new provider wins every key it has), and performs
    the events it performed before followed by those of the new
    provider. *)
Theorem get_values_after_register substitutor items provider w values m :
  OrderedDict.get (type provider) items = None ->
  result (get_values (ConfigurationProvider_ substitutor items) w)
  = inr (VDict values) ->
  result (get_values provider w) = inr (VDict m) ->
  get_values
    (register_provider (ConfigurationProvider_ substitutor items) provider).2
    w
  = mkOutcome
      (events (get_values (ConfigurationProvider_ substitutor items) w)
         ++ events (get_values provider w))
      (inr (VDict (m ∪ values))).
Proof.
  intros Hnone Hitems Hm. apply get_values_aggregate_inv in Hitems.
  rewrite register_provider_aggregator, registry_register_provider.
  rewrite contains_get, Hnone.
  rewrite bool_decide_eq_false_2 by (by intros [? ?]).
  rewrite !get_values_aggregate, update_all_app, bind_run, Hitems.
  cbn [update_all events result]. rewrite bind_run, Hm.
  cbn [dict_update]. rewrite bind_lift_inr. simpl. by rewrite app_nil_r.
Qed.

(** X6. When the providers registered before [provider] return mappings
    and [provider.get_values()] raises, the aggregating provider raises
    that same exception right after the events of [provider]: the
    providers registered after it are not called and no partial mapping is
    returned. *)
Theorem get_values_provider_raises substitutor before c provider after w
    values e :
  result (get_values (ConfigurationProvider_ substitutor before) w)
  = inr (VDict values) ->
  result (get_values provider w) = inl e ->
  get_values
    (ConfigurationProvider_ substitutor (before ++ (c, provider) :: after)) w
  = mkOutcome
      (events (get_values (ConfigurationProvider_ substitutor before) w)
         ++ events (get_values provider w))
      (inl e).
Proof.
  intros Hbefore He. apply get_values_aggregate_inv in Hbefore.
  rewrite !get_values_aggregate, update_all_app, bind_run, Hbefore.
  cbn [update_all events result]. by rewrite bind_run, He.
Qed.

(** X7. The events of the aggregating provider's [get_values()] are
    events of its providers' [get_values()], in registration order: always
    a prefix of their concatenation, and the whole of it when the call
    returns. *)
Theorem get_values_events substitutor items w :
  let all := concat ((fun item => events (get_values item.2 w)) <$> items) in
  let o := get_values (ConfigurationProvider_ substitutor items) w in
  events o `prefix_of` all
  /\ (forall v, result o = inr v -> events o = all).
Proof.
  intros all o. unfold o, all. rewrite get_values_aggregate.
  cbn [events result]. clear o all.
  assert (forall values,
             events (update_all get_values items values w)
               `prefix_of`
               concat ((fun item => events (get_values item.2 w)) <$> items)
             /\ (forall v,
                    result (update_all get_values items values w) = inr v ->
                    events (update_all get_values items values w)
                    = concat ((fun item => events (get_values item.2 w))
                                <$> items))) as H.
  { induction items as [|[c p] items IH]; intros values.
    - by split.
    - cbn [update_all fmap list_fmap concat snd]. rewrite bind_run.
      destruct (result (get_values p w)) as [e|x].
      + split; [|done]. cbn [events]. by apply prefix_app_r.
      + cbn [events result]. rewrite bind_run. cbn [lift result events].
        destruct (dict_update values x) as [e|values'].
        * split; [|done]. simpl. rewrite app_nil_r. by apply prefix_app_r.
        * destruct (IH values') as [Hpre Heq]. simpl. split.
          -- by apply prefix_app.
          -- intros v Hv. by rewrite (Heq v Hv). }
  destruct (H ∅) as [Hpre Heq]. split; [done|].
  intros v Hv. destruct (result (update_all get_values items ∅ w)) eqn:Hr;
    [done|]. by eapply Heq.
Qed.

(** X8. An aggregating provider registered inside another one contributes
    exactly what its own providers would contribute in its place: the
    outer [get_values()] has the same events and the same result. *)
Theorem get_values_nested substitutor substitutor' before c inner after w :
  get_values
    (ConfigurationProvider_ substitutor
       (before ++ (c, ConfigurationProvider_ substitutor' inner) :: after)) w
  = get_values
      (ConfigurationProvider_ substitutor (before ++ inner ++ after)) w.
Proof.
  rewrite !get_values_aggregate.
  assert (update_all get_values
            (before ++ (c, ConfigurationProvider_ substitutor' inner) :: after)
            ∅ w
          = update_all get_values (before ++ inner ++ after) ∅ w) as ->;
    [|done].
  rewrite !update_all_app. apply bind_ext. intros values.
  rewrite update_all_app. cbn [update_all].
  rewrite !bind_run, get_values_aggregate, (update_all_acc inner values).
  cbn [events result].
  destruct (result (update_all get_values inner ∅ w)) as [e|v]; [done|].
  cbn [dict_update]. by rewrite bind_lift_inr.
Qed.

(** X9. A provider whose [get_values()] returns the empty mapping (as the
    Variables-File provider does when its file is missing) leaves the
    result of the aggregating provider as it would be without it. *)
Theorem get_values_empty_provider substitutor before c provider after w :
  result (get_values provider w) = inr (VDict ∅) ->
  result
    (get_values
       (ConfigurationProvider_ substitutor (before ++ (c, provider) :: after))
       w)
  = result
      (get_values (ConfigurationProvider_ substitutor (before ++ after)) w).
Proof.
  intros Hempty. rewrite !get_values_aggregate. cbn [result].
  rewrite !update_all_app, !result_bind.
  destruct (result (update_all get_values before ∅ w)) as [e|values]; [done|].
  cbn [update_all]. rewrite result_bind, Hempty. cbn [dict_update].
  by rewrite bind_lift_inr, (left_id_L ∅ (∪)).
Qed.

(** ** Further properties of [substitute_config] *)

(** X10. With [config_values] given, [substitute_config] does not call
    [get_values()]: on every instance that has its [_substitutor], also a
    Variables-File or Process-Environment provider, it performs no event
    and returns what the engine makes of [config] and the given values,
    whatever the world. *)
Theorem substitute_config_given_values self substitutor config d w :
  get_substitutor self = inr substitutor ->
  substitute_config self config (Some d) w
  = mkOutcome []
      (substitute_all_config_variables substitutor config (of_str_dict d)).
Proof.
  intros Hsub. unfold substitute_config.
  by rewrite bind_mret_l, Hsub, bind_lift_inr.
Qed.

(** X11. With [config_values] omitted, an exception raised by
    [get_values()] is the outcome of [substitute_config]: the call stops
    after the events of [get_values()] and the engine is not reached. *)
Theorem substitute_config_get_values_raises self config w e :
  result (get_values self w) = inl e ->
  substitute_config self config None w
  = mkOutcome (events (get_values self w)) (inl e).
Proof.
  intros He. unfold substitute_config. by rewrite bind_run, He.
Qed.

(** X17. Omitting [config_values] gives the same result as passing the
    mapping that the provider's own [get_values()] returns: when
    [get_values()] returns the string mapping [d],
    [substitute_config(config)] and [substitute_config(config, d)] have
    the same result (on every instance, with or without a
    [_substitutor]). *)
Theorem substitute_config_omitted_values self config d w :
  result (get_values self w) = inr (of_str_dict d) ->
  result (substitute_config self config None w)
  = result (substitute_config self config (Some d) w).
Proof.
  intros Hd. unfold substitute_config.
  by rewrite result_bind, Hd, bind_mret_l.
Qed.

(** ** Further properties of the Variables-File provider *)

Lemma result_handled evs e :
  result (handled evs e) =
  match e with
  | OSError n _ =>
      if decide (n = Some errno.ENOENT) then inr (VDict ∅) else inl e
  | _ => inl e
  end.
Proof.
  destruct e as [| | |n msg|]; try reflexivity. simpl.
  by destruct (decide (n ≠ Some errno.ENOENT)),
       (decide (n = Some errno.ENOENT)).
Qed.

(** The run of [get_values] when the path expression is not substituted
    to a string. *)
Lemma config_variables_run_no_path substitutor path root w :
  (forall defined_path,
      substitute_config_variable substitutor (VStr path)
        (of_str_dict (os_environ w)) <> inr (VStr defined_path)) ->
  get_values
    (ConfigurationVariablesConfigurationProvider_ (Some substitutor) path root)
    w
  = handled [EvEnviron]
      match substitute_config_variable substitutor (VStr path)
              (of_str_dict (os_environ w)) with
      | inl e => e
      | inr v =>
          TypeError ("expected str, bytes or os.PathLike object, not "
                       ++ type_name v)
      end.
Proof.
  intros Hpath. cbn [get_values].
  unfold config_variables_get_values, try_except, handled.
  unfold mbind, M_bind, bind, lift, dict_os_environ, open_read.
  cbn -[os.path.join os.path.isabs str_or decide].
  destruct (substitute_config_variable _ _ _) as [e|v].
  - destruct e as [| | |n msg|]; try reflexivity. simpl.
    by destruct (decide (n ≠ Some errno.ENOENT)).
  - destruct v; try reflexivity. by destruct (Hpath s).
Qed.

(** X12. [get_values()] of a Variables-File provider reads the
    environment first and opens at most one file; a file that was opened
    is read and closed before the call ends, whatever happens afterwards;
    only when [open] itself raises is there nothing to close. *)
Theorem config_variables_events path root w :
  let evs :=
    events
      (get_values (new_ConfigurationVariablesConfigurationProvider path root)
         w) in
  evs = [EvEnviron]
  \/ exists p,
       (evs = [EvEnviron; EvOpen p] /\ exists e, filesystem w p = inl e)
       \/ (evs = [EvEnviron; EvOpen p; EvRead p; EvClose p]
           /\ exists r, filesystem w p = inr r).
Proof.
  intros evs. unfold evs. clear evs.
  unfold new_ConfigurationVariablesConfigurationProvider,
    AbstractConfigurationProvider_init.
  destruct (substitute_config_variable new_substitutor (VStr path)
              (of_str_dict (os_environ w))) as [e|v] eqn:Hsub.
  - left. rewrite config_variables_run_no_path; [done|].
    intros d. by rewrite Hsub.
  - destruct v as [| | |defined_path|];
      try (left; rewrite config_variables_run_no_path;
           [done | intros d; by rewrite Hsub]).
    right. rewrite (config_variables_run _ _ _ _ _ Hsub). cbv zeta.
    eexists. destruct (filesystem w _) as [e|r] eqn:Hfs.
    + left. split; [done|]. by exists e.
    + right. split; [|by exists r].
      destruct r as [e|contents]; [done|].
      by destruct (parse_and_substitute _ _ _).
Qed.

(** X13. When the substituted path is absolute, the root directory given
    at construction plays no part: providers that differ only in their
    root directory have the same outcome. *)
Theorem get_values_absolute_ignores_root path root root' w defined_path :
  substitute_config_variable new_substitutor (VStr path)
    (of_str_dict (os_environ w)) = inr (VStr defined_path) ->
  os.path.isabs defined_path = true ->
  get_values (new_ConfigurationVariablesConfigurationProvider path root) w
  = get_values (new_ConfigurationVariablesConfigurationProvider path root') w.
Proof.
  intros Hpath Habs.
  unfold new_ConfigurationVariablesConfigurationProvider,
    AbstractConfigurationProvider_init.
  rewrite !(config_variables_run _ _ _ _ _ Hpath). cbv zeta.
  by rewrite Habs.
Qed.

(** X14. [get_values()] of a Variables-File provider depends on the world
    through the environment and the one file it opens only: in two worlds
    with the same environment and the same file at the opened path, the
    outcomes are equal, whatever the other files are. *)
Theorem get_values_local path root w w' :
  let self := new_ConfigurationVariablesConfigurationProvider path root in
  os_environ w = os_environ w' ->
  (forall p, opened_paths (events (get_values self w)) = [p] ->
             filesystem w p = filesystem w' p) ->
  get_values self w = get_values self w'.
Proof.
  intros self Henv Hfs. unfold self in *. clear self.
  unfold new_ConfigurationVariablesConfigurationProvider,
    AbstractConfigurationProvider_init in *.
  destruct (substitute_config_variable new_substitutor (VStr path)
              (of_str_dict (os_environ w))) as [e|v] eqn:Hsub.
  - rewrite !config_variables_run_no_path.
    + by rewrite <-Henv.
    + intros d. by rewrite <-Henv, Hsub.
    + intros d. by rewrite Hsub.
  - destruct v as [| | |defined_path|];
      try (rewrite !config_variables_run_no_path;
           [by rewrite <-Henv
           |intros d; by rewrite <-Henv, Hsub
           |intros d; by rewrite Hsub]).
    pose proof Hsub as Hsub'. rewrite Henv in Hsub'.
    specialize (Hfs _ (config_variables_opened _ _ root _ _ Hsub)).
    rewrite (config_variables_run _ _ _ _ _ Hsub),
      (config_variables_run _ _ _ _ _ Hsub').
    cbv zeta. by rewrite <-Hfs, <-Henv.
Qed.

(** X15. An exception raised by the parser, or by the engine on the
    parsed mapping, goes through the same handler as a failure of [open]:
    it reaches the caller unchanged, except an [OSError] whose [errno]
    is [ENOENT], which is turned into the empty mapping. *)
Theorem get_values_parse_failure path root w p contents e :
  let self := new_ConfigurationVariablesConfigurationProvider path root in
  opened_paths (events (get_values self w)) = [p] ->
  filesystem w p = inr (inr contents) ->
  (yaml_load contents = inl e
   \/ exists variables,
        yaml_load contents = inr (VDict variables)
        /\ substitute_all_config_variables new_substitutor (VDict variables)
             (of_str_dict (os_environ w)) = inl e) ->
  result (get_values self w) =
  match e with
  | OSError n _ =>
      if decide (n = Some errno.ENOENT) then inr (VDict ∅) else inl e
  | _ => inl e
  end.
Proof.
  intros self Hopen Hfile Hraise. subst self.
  rewrite (config_variables_parsed _ _ _ _ _ Hopen Hfile). cbv zeta.
  assert (parse_and_substitute new_substitutor contents (os_environ w)
          = inl e) as ->.
  { unfold parse_and_substitute.
    destruct Hraise as [->|(variables & -> & Hsub)]; [done|].
    by rewrite py_dict_VDict, dict_or_empty_id. }
  apply result_handled.
Qed.

(** X16. When the engine does not turn the path expression into a string
    (it raises, or returns another object), [get_values()] opens no file:
    an exception of the engine goes through the handler, and another
    object makes [os.path.isabs] raise a [TypeError]. *)
Theorem get_values_no_path path root w :
  let self := new_ConfigurationVariablesConfigurationProvider path root in
  let substituted :=
    substitute_config_variable new_substitutor (VStr path)
      (of_str_dict (os_environ w)) in
  (forall defined_path, substituted <> inr (VStr defined_path)) ->
  events (get_values self w) = [EvEnviron]
  /\ result (get_values self w) =
     match substituted with
     | inl (OSError n msg) =>
         if decide (n = Some errno.ENOENT) then inr (VDict ∅)
         else inl (OSError n msg)
     | inl e => inl e
     | inr v =>
         inl (TypeError ("expected str, bytes or os.PathLike object, not "
                           ++ type_name v))
     end.
Proof.
  intros self substituted Hpath. subst self substituted.
  unfold new_ConfigurationVariablesConfigurationProvider,
    AbstractConfigurationProvider_init.
  rewrite (config_variables_run_no_path _ _ _ _ Hpath).
  split; [done|]. rewrite result_handled.
  destruct (substitute_config_variable _ _ _) as [e|v]; [|done].
  by destruct e.
Qed.

End config_provider.

(** ** The properties on concrete inputs *)

(** The end-to-end example of the specification: the runtime environment
    [{"X": "runtime"}] registered first, the process environment with
    [X=envval] second. *)
Lemma get_values_merge_witness :
  NoDup (type <$>
           [new_RuntimeEnvironmentConfigurationProvider Engine.substitutor
              Examples.runtime_environment;
            new_EnvironmentConfigurationProvider Engine.substitutor])
  /\ Forall2
       (fun p m =>
          result (get_values Examples.yaml_load Examples.cloud_env p
                    Examples.world) = inr (VDict m))
       [new_RuntimeEnvironmentConfigurationProvider Engine.substitutor
          Examples.runtime_environment;
        new_EnvironmentConfigurationProvider Engine.substitutor]
       [VStr <$> Examples.runtime_environment; VStr <$> Examples.environ]
  /\ exists merged,
       result
         (get_values Examples.yaml_load Examples.cloud_env
            (register_each (new_ConfigurationProvider Engine.substitutor)
               [new_RuntimeEnvironmentConfigurationProvider Engine.substitutor
                  Examples.runtime_environment;
                new_EnvironmentConfigurationProvider Engine.substitutor])
            Examples.world) = inr (VDict merged)
       /\ forall k,
            merged !! k =
            latest k [VStr <$> Examples.runtime_environment;
                      VStr <$> Examples.environ].
Proof.
  assert (NoDup (type <$>
           [new_RuntimeEnvironmentConfigurationProvider Engine.substitutor
              Examples.runtime_environment;
            new_EnvironmentConfigurationProvider Engine.substitutor]))
    as Hnd.
  { by apply (bool_decide_unpack _). }
  assert (Forall2
       (fun p m =>
          result (get_values Examples.yaml_load Examples.cloud_env p
                    Examples.world) = inr (VDict m))
       [new_RuntimeEnvironmentConfigurationProvider Engine.substitutor
          Examples.runtime_environment;
        new_EnvironmentConfigurationProvider Engine.substitutor]
       [VStr <$> Examples.runtime_environment; VStr <$> Examples.environ])
    as Hout.
  { repeat constructor. }
  split; [exact Hnd|]. split; [exact Hout|].
  exact (get_values_merge Engine.substitutor Examples.yaml_load
           Examples.cloud_env _ _ Examples.world Hnd Hout).
Defined.

Example merge_later_wins :
  result
    (get_values Examples.yaml_load Examples.cloud_env
       (register_each (new_ConfigurationProvider Engine.substitutor)
          [new_RuntimeEnvironmentConfigurationProvider Engine.substitutor
             Examples.runtime_environment;
           new_EnvironmentConfigurationProvider Engine.substitutor])
       Examples.world)
  = inr (VDict (<["X" := VStr "envval"]>
                  (<["GX_HOME" := VStr "/etc/gx"]> ∅))).
Proof. vm_compute. reflexivity. Qed.

(** No variables file: the open fails with [ENOENT] and the result is the
    empty mapping. *)
Lemma get_values_read_failure_witness :
  opened_paths
    (events
       (get_values Examples.yaml_load Examples.cloud_env
          (new_ConfigurationVariablesConfigurationProvider Engine.substitutor
             Examples.variables_path None)
          Examples.world)) = [Examples.resolved_path]
  /\ read_failure (filesystem Examples.world Examples.resolved_path)
     = Some Examples.no_such_file
  /\ result
       (get_values Examples.yaml_load Examples.cloud_env
          (new_ConfigurationVariablesConfigurationProvider Engine.substitutor
             Examples.variables_path None)
          Examples.world) = inr (VDict ∅).
Proof.
  split; [vm_compute; reflexivity|]. split; [reflexivity|].
  apply (get_values_read_failure Engine.substitutor Examples.yaml_load
           Examples.cloud_env Examples.variables_path None Examples.world
           Examples.resolved_path Examples.no_such_file).
  - vm_compute. reflexivity.
  - reflexivity.
Defined.

(** A variables file that cannot be read: the [PermissionError] reaches
    the caller as it was raised. *)
Example permission_denied_propagates :
  get_values Examples.yaml_load Examples.cloud_env
    (new_ConfigurationVariablesConfigurationProvider Engine.substitutor
       Examples.variables_path None)
    Examples.world_unreadable
  = mkOutcome [EvEnviron; EvOpen Examples.resolved_path]
      (inl Examples.permission_denied).
Proof. vm_compute. reflexivity. Qed.

Lemma register_provider_duplicate_witness :
  OrderedDict.get
    (type (new_RuntimeEnvironmentConfigurationProvider Engine.substitutor ∅))
    [(RuntimeEnvironmentConfigurationProvider,
      new_RuntimeEnvironmentConfigurationProvider Engine.substitutor
        Examples.runtime_environment);
     (EnvironmentConfigurationProvider,
      new_EnvironmentConfigurationProvider Engine.substitutor)]
  = Some (new_RuntimeEnvironmentConfigurationProvider Engine.substitutor
            Examples.runtime_environment)
  /\ (register_provider
        (ConfigurationProvider_ (Some Engine.substitutor)
           [(RuntimeEnvironmentConfigurationProvider,
             new_RuntimeEnvironmentConfigurationProvider Engine.substitutor
               Examples.runtime_environment);
            (EnvironmentConfigurationProvider,
             new_EnvironmentConfigurationProvider Engine.substitutor)])
        (new_RuntimeEnvironmentConfigurationProvider Engine.substitutor ∅)
      = (inl (ValueError
                "Provider of type <class 'great_expectations.core.config_provider.RuntimeEnvironmentConfigurationProvider'> has already been registered!"),
         ConfigurationProvider_ (Some Engine.substitutor)
           [(RuntimeEnvironmentConfigurationProvider,
             new_RuntimeEnvironmentConfigurationProvider Engine.substitutor
               Examples.runtime_environment);
            (EnvironmentConfigurationProvider,
             new_EnvironmentConfigurationProvider Engine.substitutor)])
      /\ get_provider
           (register_provider
              (ConfigurationProvider_ (Some Engine.substitutor)
                 [(RuntimeEnvironmentConfigurationProvider,
                   new_RuntimeEnvironmentConfigurationProvider
                     Engine.substitutor Examples.runtime_environment);
                  (EnvironmentConfigurationProvider,
                   new_EnvironmentConfigurationProvider Engine.substitutor)])
              (new_RuntimeEnvironmentConfigurationProvider
                 Engine.substitutor ∅)).2
           RuntimeEnvironmentConfigurationProvider
         = inr (Some (new_RuntimeEnvironmentConfigurationProvider
                        Engine.substitutor Examples.runtime_environment))).
Proof.
  split; [reflexivity|].
  apply (register_provider_duplicate (Some Engine.substitutor)
           [(RuntimeEnvironmentConfigurationProvider,
             new_RuntimeEnvironmentConfigurationProvider Engine.substitutor
               Examples.runtime_environment);
            (EnvironmentConfigurationProvider,
             new_EnvironmentConfigurationProvider Engine.substitutor)]
           (new_RuntimeEnvironmentConfigurationProvider Engine.substitutor ∅)).
  reflexivity.
Defined.

(** An empty variables file: the parser returns [None] and [get_values]
    raises [TypeError]. *)
Lemma get_values_null_document_witness :
  opened_paths
    (events
       (get_values Examples.yaml_load Examples.cloud_env
          (new_ConfigurationVariablesConfigurationProvider Engine.substitutor
             Examples.variables_path None)
          (Examples.world_with ""))) = [Examples.resolved_path]
  /\ filesystem (Examples.world_with "") Examples.resolved_path
     = inr (inr "")
  /\ Examples.yaml_load "" = inr VNone
  /\ result
       (get_values Examples.yaml_load Examples.cloud_env
          (new_ConfigurationVariablesConfigurationProvider Engine.substitutor
             Examples.variables_path None)
          (Examples.world_with ""))
     = inl (TypeError "'NoneType' object is not iterable").
Proof.
  split; [vm_compute; reflexivity|].
  split; [reflexivity|]. split; [reflexivity|].
  apply (get_values_null_document Engine.substitutor Examples.yaml_load
           Examples.cloud_env Examples.variables_path None
           (Examples.world_with "") Examples.resolved_path "").
  - vm_compute. reflexivity.
  - reflexivity.
  - reflexivity.
Defined.

(** A variables file that holds the empty mapping: [get_values] returns
    the empty mapping. *)
Example empty_mapping_document :
  get_values Examples.yaml_load Examples.cloud_env
    (new_ConfigurationVariablesConfigurationProvider Engine.substitutor
       Examples.variables_path None)
    (Examples.world_with "{}")
  = mkOutcome
      [EvEnviron; EvOpen Examples.resolved_path;
       EvRead Examples.resolved_path; EvClose Examples.resolved_path]
      (inr (VDict ∅)).
Proof. vm_compute. reflexivity. Qed.

(** The path expression [$GX_HOME/config_variables.yml] with
    [GX_HOME=/etc/gx]: the substituted path is absolute and is opened as
    it is. *)
Lemma get_values_resolved_path_witness :
  substitute_config_variable Engine.substitutor
    (VStr Examples.variables_path) (of_str_dict (os_environ Examples.world))
  = inr (VStr Examples.resolved_path)
  /\ opened_paths
       (events
          (get_values Examples.yaml_load Examples.cloud_env
             (new_ConfigurationVariablesConfigurationProvider
                Engine.substitutor Examples.variables_path (Some "/srv"))
             Examples.world)) = [Examples.resolved_path].
Proof.
  assert (substitute_config_variable Engine.substitutor
            (VStr Examples.variables_path)
            (of_str_dict (os_environ Examples.world))
          = inr (VStr Examples.resolved_path)) as Hpath.
  { vm_compute. reflexivity. }
  split; [exact Hpath|].
  apply (proj1 (get_values_resolved_path Engine.substitutor
                  Examples.yaml_load Examples.cloud_env
                  Examples.variables_path (Some "/srv") Examples.world
                  Examples.resolved_path Hpath)).
  reflexivity.
Defined.

(** A relative path is joined to the root directory, and to [.] when
    there is none. *)
Example relative_path_with_root :
  opened_paths
    (events
       (get_values Examples.yaml_load Examples.cloud_env
          (new_ConfigurationVariablesConfigurationProvider Engine.substitutor
             "uncommitted/config_variables.yml" (Some "/srv/gx"))
          Examples.world))
  = ["/srv/gx/uncommitted/config_variables.yml"].
Proof. vm_compute. reflexivity. Qed.

Example relative_path_without_root :
  opened_paths
    (events
       (get_values Examples.yaml_load Examples.cloud_env
          (new_ConfigurationVariablesConfigurationProvider Engine.substitutor
             "uncommitted/config_variables.yml" None)
          Examples.world))
  = ["./uncommitted/config_variables.yml"].
Proof. vm_compute. reflexivity. Qed.

(** The record of the specification: [base_url="https://x"],
    [access_token="tok"], [organization_id="org1"]. *)
Lemma cloud_get_values_three_witness :
  BASE_URL Examples.cloud_env <> ACCESS_TOKEN Examples.cloud_env
  /\ BASE_URL Examples.cloud_env <> ORGANIZATION_ID Examples.cloud_env
  /\ ACCESS_TOKEN Examples.cloud_env <> ORGANIZATION_ID Examples.cloud_env
  /\ exists values : Values,
       (forall w',
           get_values Examples.yaml_load Examples.cloud_env
             (new_CloudConfigurationProvider Examples.cloud_config) w'
           = mkOutcome [] (inr (VDict values)))
       /\ events
            (get_values Examples.yaml_load Examples.cloud_env
               (new_CloudConfigurationProvider Examples.cloud_config)
               Examples.world) = []
       /\ size values = 3
       /\ values !! "GX_CLOUD_BASE_URL" = Some (VStr "https://x")
       /\ values !! "GX_CLOUD_ACCESS_TOKEN" = Some (VStr "tok")
       /\ values !! "GX_CLOUD_ORGANIZATION_ID" = Some (VStr "org1").
Proof.
  assert (BASE_URL Examples.cloud_env <> ACCESS_TOKEN Examples.cloud_env)
    as Hba by discriminate.
  assert (BASE_URL Examples.cloud_env <> ORGANIZATION_ID Examples.cloud_env)
    as Hbo by discriminate.
  assert (ACCESS_TOKEN Examples.cloud_env
          <> ORGANIZATION_ID Examples.cloud_env) as Hao by discriminate.
  split; [exact Hba|]. split; [exact Hbo|]. split; [exact Hao|].
  exact (cloud_get_values_three Examples.yaml_load Examples.cloud_env
           Examples.cloud_config Examples.world Hba Hbo Hao).
Defined.

(** The variables file [{A: '1', B: $A}] in an environment without [A]:
    [B] keeps its placeholder. *)
Lemma get_values_single_pass_witness :
  opened_paths
    (events
       (get_values Examples.yaml_load Examples.cloud_env
          (new_ConfigurationVariablesConfigurationProvider Engine.substitutor
             Examples.variables_path None)
          (Examples.world_with "{A: '1', B: $A}")))
  = [Examples.resolved_path]
  /\ filesystem (Examples.world_with "{A: '1', B: $A}") Examples.resolved_path
     = inr (inr "{A: '1', B: $A}")
  /\ Examples.yaml_load "{A: '1', B: $A}" = inr (VDict Examples.chained)
  /\ result
       (get_values Examples.yaml_load Examples.cloud_env
          (new_ConfigurationVariablesConfigurationProvider Engine.substitutor
             Examples.variables_path None)
          (Examples.world_with "{A: '1', B: $A}"))
     = inr (VDict (<["B" := VStr "$A"]> (<["A" := VStr "1"]> ∅)))
  /\ exists out,
       result
         (get_values Examples.yaml_load Examples.cloud_env
            (new_ConfigurationVariablesConfigurationProvider
               Engine.substitutor Examples.variables_path None)
            (Examples.world_with "{A: '1', B: $A}"))
       = inr (VDict out)
       /\ forall k,
            out !! k =
            Engine.substitute_all (VStr <$> Examples.environ)
              <$> Examples.chained !! k.
Proof.
  assert (opened_paths
    (events
       (get_values Examples.yaml_load Examples.cloud_env
          (new_ConfigurationVariablesConfigurationProvider Engine.substitutor
             Examples.variables_path None)
          (Examples.world_with "{A: '1', B: $A}")))
  = [Examples.resolved_path]) as Hopen.
  { vm_compute. reflexivity. }
  assert (filesystem (Examples.world_with "{A: '1', B: $A}")
            Examples.resolved_path = inr (inr "{A: '1', B: $A}")) as Hfile.
  { reflexivity. }
  assert (Examples.yaml_load "{A: '1', B: $A}" = inr (VDict Examples.chained))
    as Hyaml.
  { reflexivity. }
  split; [exact Hopen|]. split; [exact Hfile|]. split; [exact Hyaml|].
  destruct (get_values_single_pass Engine.substitutor Examples.yaml_load
              Examples.cloud_env Examples.variables_path None
              (Examples.world_with "{A: '1', B: $A}") Examples.resolved_path
              "{A: '1', B: $A}" Examples.chained Hopen Hfile Hyaml)
    as [Hpass Hleaf].
  split.
  - apply Hpass. vm_compute. reflexivity.
  - apply (Hleaf (Engine.substitute_all (VStr <$> Examples.environ))).
    intros m. reflexivity.
Defined.

(** The substitution example of the specification, with the values
    given by the caller. *)
Example substitute_config_hello :
  result
    (substitute_config Examples.yaml_load Examples.cloud_env
       (new_EnvironmentConfigurationProvider Engine.substitutor)
       (VDict (<["msg" := VStr "hello $NAME"]>
                 (<["other" := VStr "$MISSING!"]> ∅)))
       (Some {["NAME" := "world"]}) Examples.world)
  = inr (VDict (<["msg" := VStr "hello world"]>
                  (<["other" := VStr "$MISSING!"]> ∅))).
Proof. vm_compute. reflexivity. Qed.

(** With the values omitted, the four classes that have a substitutor
    use their own [get_values()]. *)
Example substitute_config_own_values :
  result
    (substitute_config Examples.yaml_load Examples.cloud_env
       (new_EnvironmentConfigurationProvider Engine.substitutor)
       (VStr "$GX_HOME/plugins") None Examples.world)
  = inr (VStr "/etc/gx/plugins").
Proof. vm_compute. reflexivity. Qed.

(** Lookups on an aggregating provider that holds a runtime-environment
    provider only. *)
Example get_provider_present :
  get_provider
    (register_each (new_ConfigurationProvider Engine.substitutor)
       [new_RuntimeEnvironmentConfigurationProvider Engine.substitutor
          Examples.runtime_environment])
    RuntimeEnvironmentConfigurationProvider
  = inr (Some (new_RuntimeEnvironmentConfigurationProvider Engine.substitutor
                 Examples.runtime_environment)).
Proof. reflexivity. Qed.

Example get_provider_absent :
  get_provider
    (register_each (new_ConfigurationProvider Engine.substitutor)
       [new_RuntimeEnvironmentConfigurationProvider Engine.substitutor
          Examples.runtime_environment])
    CloudConfigurationProvider
  = inr None.
Proof. reflexivity. Qed.

(** ** The further properties on concrete inputs *)

Lemma register_provider_new_witness :
  OrderedDict.get (type Examples.environment)
    [(RuntimeEnvironmentConfigurationProvider, Examples.runtime)] = None
  /\ register_provider
       (Examples.aggregate
          [(RuntimeEnvironmentConfigurationProvider, Examples.runtime)])
       Examples.environment
     = (inr (),
        Examples.aggregate
          [(RuntimeEnvironmentConfigurationProvider, Examples.runtime);
           (EnvironmentConfigurationProvider, Examples.environment)]).
Proof.
  split; [reflexivity|].
  apply (register_provider_new (Some Engine.substitutor)
           [(RuntimeEnvironmentConfigurationProvider, Examples.runtime)]
           Examples.environment).
  reflexivity.
Defined.

Lemma get_provider_stable_witness :
  get_provider
    (Examples.aggregate
       [(RuntimeEnvironmentConfigurationProvider, Examples.runtime)])
    RuntimeEnvironmentConfigurationProvider
  = inr (Some Examples.runtime)
  /\ get_provider
       (register_each
          (Examples.aggregate
             [(RuntimeEnvironmentConfigurationProvider, Examples.runtime)])
          [Examples.environment;
           new_RuntimeEnvironmentConfigurationProvider Engine.substitutor ∅;
           Examples.variables])
       RuntimeEnvironmentConfigurationProvider
     = inr (Some Examples.runtime).
Proof.
  split; [reflexivity|].
  apply (get_provider_stable (Some Engine.substitutor)
           [(RuntimeEnvironmentConfigurationProvider, Examples.runtime)]).
  reflexivity.
Defined.

Lemma get_values_after_register_witness :
  OrderedDict.get (type Examples.environment)
    [(RuntimeEnvironmentConfigurationProvider, Examples.runtime)] = None
  /\ result
       (get_values Examples.yaml_load Examples.cloud_env
          (Examples.aggregate
             [(RuntimeEnvironmentConfigurationProvider, Examples.runtime)])
          Examples.world)
     = inr (VDict (VStr <$> Examples.runtime_environment))
  /\ result
       (get_values Examples.yaml_load Examples.cloud_env Examples.environment
          Examples.world)
     = inr (VDict (VStr <$> Examples.environ))
  /\ get_values Examples.yaml_load Examples.cloud_env
       (register_provider
          (Examples.aggregate
             [(RuntimeEnvironmentConfigurationProvider, Examples.runtime)])
          Examples.environment).2
       Examples.world
     = mkOutcome [EvEnviron]
         (inr (VDict ((VStr <$> Examples.environ)
                        ∪ (VStr <$> Examples.runtime_environment)))).
Proof.
  assert (result
       (get_values Examples.yaml_load Examples.cloud_env
          (Examples.aggregate
             [(RuntimeEnvironmentConfigurationProvider, Examples.runtime)])
          Examples.world)
     = inr (VDict (VStr <$> Examples.runtime_environment))) as Hbefore.
  { vm_compute. reflexivity. }
  split; [reflexivity|]. split; [exact Hbefore|]. split; [reflexivity|].
  apply (get_values_after_register Examples.yaml_load Examples.cloud_env
           (Some Engine.substitutor)
           [(RuntimeEnvironmentConfigurationProvider, Examples.runtime)]
           Examples.environment Examples.world
           (VStr <$> Examples.runtime_environment)
           (VStr <$> Examples.environ)).
  - reflexivity.
  - exact Hbefore.
  - reflexivity.
Defined.

(** The variables file cannot be read: the aggregation fails with the
    [PermissionError] and the provider registered after it is not
    called. *)
Lemma get_values_provider_raises_witness :
  result
    (get_values Examples.yaml_load Examples.cloud_env
       (Examples.aggregate
          [(RuntimeEnvironmentConfigurationProvider, Examples.runtime)])
       Examples.world_unreadable)
  = inr (VDict (VStr <$> Examples.runtime_environment))
  /\ result
       (get_values Examples.yaml_load Examples.cloud_env Examples.variables
          Examples.world_unreadable)
     = inl Examples.permission_denied
  /\ get_values Examples.yaml_load Examples.cloud_env
       (Examples.aggregate
          [(RuntimeEnvironmentConfigurationProvider, Examples.runtime);
           (ConfigurationVariablesConfigurationProvider, Examples.variables);
           (EnvironmentConfigurationProvider, Examples.environment)])
       Examples.world_unreadable
     = mkOutcome [EvEnviron; EvOpen Examples.resolved_path]
         (inl Examples.permission_denied).
Proof.
  assert (result
    (get_values Examples.yaml_load Examples.cloud_env
       (Examples.aggregate
          [(RuntimeEnvironmentConfigurationProvider, Examples.runtime)])
       Examples.world_unreadable)
  = inr (VDict (VStr <$> Examples.runtime_environment))) as Hbefore.
  { vm_compute. reflexivity. }
  assert (result
       (get_values Examples.yaml_load Examples.cloud_env Examples.variables
          Examples.world_unreadable)
     = inl Examples.permission_denied) as Hraise.
  { vm_compute. reflexivity. }
  split; [exact Hbefore|]. split; [exact Hraise|].
  exact (get_values_provider_raises Examples.yaml_load Examples.cloud_env
           (Some Engine.substitutor)
           [(RuntimeEnvironmentConfigurationProvider, Examples.runtime)]
           ConfigurationVariablesConfigurationProvider Examples.variables
           [(EnvironmentConfigurationProvider, Examples.environment)]
           Examples.world_unreadable _ _ Hbefore Hraise).
Defined.

Lemma get_values_events_witness :
  result
    (get_values Examples.yaml_load Examples.cloud_env
       (Examples.aggregate
          [(RuntimeEnvironmentConfigurationProvider, Examples.runtime);
           (ConfigurationVariablesConfigurationProvider, Examples.variables);
           (EnvironmentConfigurationProvider, Examples.environment)])
       (Examples.world_with "{}"))
  = inr (VDict (VStr <$> Examples.environ))
  /\ events
       (get_values Examples.yaml_load Examples.cloud_env
          (Examples.aggregate
             [(RuntimeEnvironmentConfigurationProvider, Examples.runtime);
              (ConfigurationVariablesConfigurationProvider,
               Examples.variables);
              (EnvironmentConfigurationProvider, Examples.environment)])
          (Examples.world_with "{}"))
     = [EvEnviron; EvOpen Examples.resolved_path;
        EvRead Examples.resolved_path; EvClose Examples.resolved_path;
        EvEnviron].
Proof.
  assert (result
    (get_values Examples.yaml_load Examples.cloud_env
       (Examples.aggregate
          [(RuntimeEnvironmentConfigurationProvider, Examples.runtime);
           (ConfigurationVariablesConfigurationProvider, Examples.variables);
           (EnvironmentConfigurationProvider, Examples.environment)])
       (Examples.world_with "{}"))
  = inr (VDict (VStr <$> Examples.environ))) as Hres.
  { vm_compute. reflexivity. }
  split; [exact Hres|].
  exact (proj2 (get_values_events Examples.yaml_load Examples.cloud_env
                  (Some Engine.substitutor) _ (Examples.world_with "{}"))
           _ Hres).
Defined.

(** The variables file is missing: the merged values are those of the
    two other providers. *)
Lemma get_values_empty_provider_witness :
  result
    (get_values Examples.yaml_load Examples.cloud_env Examples.variables
       Examples.world) = inr (VDict ∅)
  /\ result
       (get_values Examples.yaml_load Examples.cloud_env
          (Examples.aggregate
             [(RuntimeEnvironmentConfigurationProvider, Examples.runtime);
              (ConfigurationVariablesConfigurationProvider,
               Examples.variables);
              (EnvironmentConfigurationProvider, Examples.environment)])
          Examples.world)
     = result
         (get_values Examples.yaml_load Examples.cloud_env
            (Examples.aggregate
               [(RuntimeEnvironmentConfigurationProvider, Examples.runtime);
                (EnvironmentConfigurationProvider, Examples.environment)])
            Examples.world).
Proof.
  assert (result
    (get_values Examples.yaml_load Examples.cloud_env Examples.variables
       Examples.world) = inr (VDict ∅)) as Hempty.
  { vm_compute. reflexivity. }
  split; [exact Hempty|].
  exact (get_values_empty_provider Examples.yaml_load Examples.cloud_env
           (Some Engine.substitutor)
           [(RuntimeEnvironmentConfigurationProvider, Examples.runtime)]
           ConfigurationVariablesConfigurationProvider Examples.variables
           [(EnvironmentConfigurationProvider, Examples.environment)]
           Examples.world Hempty).
Defined.

(** With the values given, the Variables-File provider substitutes
    without opening its file. *)
Lemma substitute_config_given_values_witness :
  get_substitutor Examples.variables = inr Engine.substitutor
  /\ substitute_config Examples.yaml_load Examples.cloud_env
       Examples.variables (VStr "hello $NAME") (Some {["NAME" := "world"]})
       Examples.world_unreadable
     = mkOutcome [] (inr (VStr "hello world")).
Proof.
  split; [reflexivity|].
  rewrite (substitute_config_given_values Examples.yaml_load
             Examples.cloud_env Examples.variables Engine.substitutor
             (VStr "hello $NAME") {["NAME" := "world"]}
             Examples.world_unreadable eq_refl).
  vm_compute. reflexivity.
Defined.

Lemma substitute_config_get_values_raises_witness :
  result
    (get_values Examples.yaml_load Examples.cloud_env Examples.variables
       Examples.world_unreadable) = inl Examples.permission_denied
  /\ substitute_config Examples.yaml_load Examples.cloud_env
       Examples.variables (VStr "hello $NAME") None Examples.world_unreadable
     = mkOutcome [EvEnviron; EvOpen Examples.resolved_path]
         (inl Examples.permission_denied).
Proof.
  assert (result
    (get_values Examples.yaml_load Examples.cloud_env Examples.variables
       Examples.world_unreadable) = inl Examples.permission_denied) as Hraise.
  { vm_compute. reflexivity. }
  split; [exact Hraise|].
  exact (substitute_config_get_values_raises Examples.yaml_load
           Examples.cloud_env Examples.variables (VStr "hello $NAME")
           Examples.world_unreadable _ Hraise).
Defined.

Lemma get_values_absolute_ignores_root_witness :
  substitute_config_variable Engine.substitutor
    (VStr Examples.variables_path) (of_str_dict (os_environ Examples.world))
  = inr (VStr Examples.resolved_path)
  /\ os.path.isabs Examples.resolved_path = true
  /\ get_values Examples.yaml_load Examples.cloud_env
       (new_ConfigurationVariablesConfigurationProvider Engine.substitutor
          Examples.variables_path (Some "/srv"))
       Examples.world
     = get_values Examples.yaml_load Examples.cloud_env
         (new_ConfigurationVariablesConfigurationProvider Engine.substitutor
            Examples.variables_path None)
         Examples.world.
Proof.
  assert (substitute_config_variable Engine.substitutor
            (VStr Examples.variables_path)
            (of_str_dict (os_environ Examples.world))
          = inr (VStr Examples.resolved_path)) as Hpath.
  { vm_compute. reflexivity. }
  split; [exact Hpath|]. split; [reflexivity|].
  apply (get_values_absolute_ignores_root Engine.substitutor
           Examples.yaml_load Examples.cloud_env Examples.variables_path
           (Some "/srv") None Examples.world Examples.resolved_path Hpath).
  reflexivity.
Defined.

(** Two worlds with the same variables file and different other files. *)
Lemma get_values_local_witness :
  os_environ (Examples.world_with "{}")
  = os_environ (Examples.world_with_more "{}")
  /\ (forall p,
         opened_paths
           (events
              (get_values Examples.yaml_load Examples.cloud_env
                 Examples.variables (Examples.world_with "{}"))) = [p] ->
         filesystem (Examples.world_with "{}") p
         = filesystem (Examples.world_with_more "{}") p)
  /\ get_values Examples.yaml_load Examples.cloud_env Examples.variables
       (Examples.world_with "{}")
     = get_values Examples.yaml_load Examples.cloud_env Examples.variables
         (Examples.world_with_more "{}").
Proof.
  assert (forall p,
         opened_paths
           (events
              (get_values Examples.yaml_load Examples.cloud_env
                 Examples.variables (Examples.world_with "{}"))) = [p] ->
         filesystem (Examples.world_with "{}") p
         = filesystem (Examples.world_with_more "{}") p) as Hfs.
  { intros p Hp. vm_compute in Hp. injection Hp as <-. reflexivity. }
  split; [reflexivity|]. split; [exact Hfs|].
  apply (get_values_local Engine.substitutor Examples.yaml_load
           Examples.cloud_env Examples.variables_path None
           (Examples.world_with "{}") (Examples.world_with_more "{}")).
  - reflexivity.
  - exact Hfs.
Defined.

(** A variables file that the parser rejects. *)
Lemma get_values_parse_failure_witness :
  opened_paths
    (events
       (get_values Examples.yaml_load Examples.cloud_env Examples.variables
          (Examples.world_with "]"))) = [Examples.resolved_path]
  /\ filesystem (Examples.world_with "]") Examples.resolved_path
     = inr (inr "]")
  /\ Examples.yaml_load "]" = inl (ExternalError "ParserError")
  /\ result
       (get_values Examples.yaml_load Examples.cloud_env Examples.variables
          (Examples.world_with "]"))
     = inl (ExternalError "ParserError").
Proof.
  split; [vm_compute; reflexivity|].
  split; [reflexivity|]. split; [reflexivity|].
  apply (get_values_parse_failure Engine.substitutor Examples.yaml_load
           Examples.cloud_env Examples.variables_path None
           (Examples.world_with "]") Examples.resolved_path "]"
           (ExternalError "ParserError")).
  - vm_compute. reflexivity.
  - reflexivity.
  - left. reflexivity.
Defined.

(** An engine that rejects the path expression: no file is opened. *)
Lemma get_values_no_path_witness :
  (forall defined_path,
      substitute_config_variable Engine.rejecting
        (VStr Examples.variables_path)
        (of_str_dict (os_environ (Examples.world_with "{}")))
      <> inr (VStr defined_path))
  /\ get_values Examples.yaml_load Examples.cloud_env
       (new_ConfigurationVariablesConfigurationProvider Engine.rejecting
          Examples.variables_path None)
       (Examples.world_with "{}")
     = mkOutcome [EvEnviron]
         (inl (ExternalError "MissingConfigVariableError")).
Proof.
  assert (forall defined_path,
      substitute_config_variable Engine.rejecting
        (VStr Examples.variables_path)
        (of_str_dict (os_environ (Examples.world_with "{}")))
      <> inr (VStr defined_path)) as Hpath.
  { intros defined_path. discriminate. }
  split; [exact Hpath|].
  destruct (get_values_no_path Engine.rejecting Examples.yaml_load
              Examples.cloud_env Examples.variables_path None
              (Examples.world_with "{}") Hpath) as [Hev Hres].
  destruct (get_values Examples.yaml_load Examples.cloud_env
              (new_ConfigurationVariablesConfigurationProvider
                 Engine.rejecting Examples.variables_path None)
              (Examples.world_with "{}")) as [evs res].
  simpl in Hev, Hres. by rewrite Hev, Hres.
Defined.

Lemma substitute_config_omitted_values_witness :
  result
    (get_values Examples.yaml_load Examples.cloud_env Examples.environment
       Examples.world) = inr (of_str_dict Examples.environ)
  /\ result
       (substitute_config Examples.yaml_load Examples.cloud_env
          Examples.environment (VStr "$GX_HOME/plugins") None Examples.world)
     = result
         (substitute_config Examples.yaml_load Examples.cloud_env
            Examples.environment (VStr "$GX_HOME/plugins")
            (Some Examples.environ) Examples.world).
Proof.
  split; [reflexivity|].
  apply (substitute_config_omitted_values Examples.yaml_load
           Examples.cloud_env Examples.environment (VStr "$GX_HOME/plugins")
           Examples.environ Examples.world).
  reflexivity.
Defined.
